(** * YarnParser2.0: the line extractor of [parse_yarn_to_csv]

    A shallow embedding of [src/YarnParser2.0.py].  The script reads a Yarn
    Spinner file, walks over its lines once and writes one CSV row per
    dialogue line or choice.

    Modelling choices.
    - A Python [str] is a [string]; a character is a code point below 256,
      and [isspace], [lower_char] are Python's [str.isspace] and [str.lower]
      on that range.  The regular expression classes [\s] and [\S] of a [str]
      pattern use the same whitespace test as [str.strip].
    - The three regular expressions of the script are written out as the
      scans they perform (leftmost match, greedy repetition).
    - The loop state (the three local variables) is a record passed from
      one iteration to the next; an iteration returns the new state and the
      row it wrote, if any.
    - The file system is a finite map from paths to what stands there,
      with a test that tells whether a path can be opened for writing; an
      error in the middle of a write is not modelled. *)

From Stdlib Require Import String Ascii List Arith Lia Bool DecimalString DecimalNat.
From stdpp Require Import gmap strings.

(** ** Characters and the string methods the script calls *)

Module Py.

(** [str.isspace] on one character (code points below 256). *)
Definition isspace (c : ascii) : bool :=
  let n := nat_of_ascii c in
  ((9 <=? n) && (n <=? 13)) || ((28 <=? n) && (n <=? 32))
  || (n =? 133) || (n =? 160).

(** What [.] matches in a pattern compiled without flags: anything but a
    line feed. *)
Definition isdot (c : ascii) : bool := negb (Ascii.eqb c "010").

Definition lower_char (c : ascii) : ascii :=
  let n := nat_of_ascii c in
  if ((65 <=? n) && (n <=? 90))
     || ((192 <=? n) && (n <=? 222) && negb (n =? 215))
  then ascii_of_nat (n + 32) else c.

(** [s.lower()] *)
Fixpoint lower (s : string) : string :=
  match s with
  | EmptyString => EmptyString
  | String c s' => String (lower_char c) (lower s')
  end.

(** [s.startswith(p)] *)
Fixpoint startswith (s p : string) {struct p} : bool :=
  match p with
  | EmptyString => true
  | String a p' =>
      match s with
      | EmptyString => false
      | String b s' => Ascii.eqb a b && startswith s' p'
      end
  end.

Arguments startswith : simpl never.

(** The longest prefix of [s] whose characters satisfy [f], and what is
    left after it. *)
Fixpoint takewhile (f : ascii -> bool) (s : string) : string :=
  match s with
  | EmptyString => EmptyString
  | String c s' => if f c then String c (takewhile f s') else EmptyString
  end.

Fixpoint dropwhile (f : ascii -> bool) (s : string) : string :=
  match s with
  | EmptyString => EmptyString
  | String c s' => if f c then dropwhile f s' else s
  end.

(** [c in chars] for a character and a string *)
Fixpoint char_in (chars : string) (c : ascii) : bool :=
  match chars with
  | EmptyString => false
  | String d chars' => Ascii.eqb c d || char_in chars' c
  end.

(** [s.lstrip()], [s.rstrip()], [s.strip()] *)
Definition lstrip (s : string) : string := dropwhile isspace s.

Fixpoint rstrip (s : string) : string :=
  match s with
  | EmptyString => EmptyString
  | String c s' =>
      match rstrip s' with
      | EmptyString => if isspace c then EmptyString else String c EmptyString
      | r => String c r
      end
  end.

Definition strip (s : string) : string := rstrip (lstrip s).

(** [s.lstrip(chars)]: drops every leading character that occurs in
    [chars]. *)
Definition lstrip_chars (chars s : string) : string :=
  dropwhile (char_in chars) s.

(** [s.split(sep, 1)[1]] for a one-character separator: what follows the
    first [sep]; indexing raises [IndexError] ([None]) when [s] has no
    [sep]. *)
Fixpoint split1_snd (sep : ascii) (s : string) : option string :=
  match s with
  | EmptyString => None
  | String c s' => if Ascii.eqb c sep then Some s' else split1_snd sep s'
  end.

(** [sep.join(l)] *)
Fixpoint join (sep : string) (l : list string) : string :=
  match l with
  | [] => ""
  | [x] => x
  | x :: l' => x +:+ sep +:+ join sep l'
  end.

(** [str(n)] for a non-negative integer. *)
Definition str_of_nat (n : nat) : string :=
  NilEmpty.string_of_uint (Nat.to_uint n).

End Py.

(** ** The three regular expressions *)

Module Re.
Import Py.

Definition nonspace (c : ascii) : bool := negb (isspace c).

(** Does a tag start at a hash followed by [s']? *)
Definition tag_follows (s' : string) : bool :=
  match s' with
  | EmptyString => false
  | String d _ => nonspace d
  end.

(** [re.findall] of the tag pattern (a hash, then group 1: one or more
    non-whitespace characters).  The scan is a two-state automaton:
    [inside] says that the characters read belong to a match that started
    at an earlier hash, so a hash met there is part of that tag.  A match
    runs up to the next whitespace character or the end. *)
Fixpoint findall_tags_from (inside : bool) (s : string) : list string :=
  match s with
  | EmptyString => []
  | String c s' =>
      if isspace c then findall_tags_from false s'
      else if inside then findall_tags_from true s'
      else if Ascii.eqb c "#" && tag_follows s'
           then takewhile nonspace s' :: findall_tags_from true s'
           else findall_tags_from false s'
  end.

Definition findall_tags (s : string) : list string := findall_tags_from false s.

(** [re.sub] of the tag pattern by the empty string: the same scan, keeping
    what is outside the matches. *)
Fixpoint sub_tags_from (inside : bool) (s : string) : string :=
  match s with
  | EmptyString => EmptyString
  | String c s' =>
      if isspace c then String c (sub_tags_from false s')
      else if inside then sub_tags_from true s'
      else if Ascii.eqb c "#" && tag_follows s'
           then sub_tags_from true s'
           else String c (sub_tags_from false s')
  end.

Definition sub_tags (s : string) : string := sub_tags_from false s.

(** The greedy run of [.] followed by [>>], tried at the head of [s]: the
    length of the longest run of non-line-feed characters after which [>>]
    stands. *)
Fixpoint dotstar_close (s : string) : option nat :=
  match s with
  | EmptyString => None
  | String c s' =>
      match (if isdot c then dotstar_close s' else None) with
      | Some k => Some (S k)
      | None => if startswith s ">>" then Some 0 else None
      end
  end.

(** Length of the match of the conditional pattern ([<<], a greedy run of
    [.], [>>]) at the head of [s], if there is one. *)
Definition match_cond (s : string) : option nat :=
  match s with
  | String "<" (String "<" s2) =>
      match dotstar_close s2 with
      | Some k => Some (k + 4)
      | None => None
      end
  | _ => None
  end.

(** [re.sub] of the conditional pattern by the empty string.  [skip] counts
    the characters still to be dropped from the match in progress. *)
Fixpoint sub_cond_from (skip : nat) (s : string) : string :=
  match s with
  | EmptyString => EmptyString
  | String c s' =>
      match skip with
      | S k => sub_cond_from k s'
      | O =>
          match match_cond s with
          | Some (S k) => sub_cond_from k s'
          | _ => String c (sub_cond_from 0 s')
          end
      end
  end.

Definition sub_cond (s : string) : string := sub_cond_from 0 s.

Definition notcolon (c : ascii) : bool := negb (Ascii.eqb c ":").

(** [re.match] of the speaker pattern (group 1: one or more characters
    other than a colon; a colon; any whitespace; group 2: a greedy run of
    [.]) at the head of [s]: the pair of groups 1 and 2.  Group 1 takes
    everything before the first colon and needs one character at least; the
    whitespace is then skipped and group 2 runs to the next line feed or the
    end. *)
Definition match_speaker (s : string) : option (string * string) :=
  match takewhile notcolon s, dropwhile notcolon s with
  | String _ _ as g1, String _ rest =>
      Some (g1, takewhile isdot (dropwhile isspace rest))
  | _, _ => None
  end.

End Re.
(** ** The loop of [parse_yarn_to_csv] *)

Module Yarn.
Import Py Re.

(** One row handed to [csv_writer.writerow], before the tags are joined. *)
Record Row := mkRow {
  line_id : string;
  node_title : string;
  character_name : string;
  text : string;
  other_tags : list string
}.

(** The five fields as written: the tags are joined by a semicolon and a
    space. *)
Definition fields (r : Row) : list string :=
  [line_id r; node_title r; character_name r; text r;
   join "; " (other_tags r)].

Definition header : list string :=
  ["line_id"; "node_title"; "character_name"; "text"; "tags"].

(** The local variables that live across iterations. *)
Record state := mkState {
  current_node_title : string;
  in_body : bool;
  line_counter : nat
}.

Definition initial : state := mkState "NO_TITLE" false 0.

(** [tag.lower().startswith('line:')] *)
Definition is_line_tag (tag : string) : bool := startswith (lower tag) "line:".

(** The loop over the tags: a tag that passes the test overwrites
    [line_id], any other is appended to [other_tags]. *)
Definition sort_tag (acc : string * list string) (tag : string)
  : string * list string :=
  if is_line_tag tag then (tag, snd acc) else (fst acc, snd acc ++ [tag]).

Definition sort_tags (tags : list string) : string * list string :=
  fold_left sort_tag tags ("", []).

(** [if not line_id]: the identifier kept or made up, and the counter
    after it. *)
Definition assign_id (lid : string) (counter : nat) : string * nat :=
  if String.eqb lid "" then ("auto_id_" +:+ str_of_nat counter, S counter)
  else (lid, counter).

(** The text of a choice: the arrow characters are dropped from the front,
    then the conditional. *)
Definition choice_text (t : string) : string :=
  strip (sub_cond (strip (lstrip_chars "->" t))).

(** Speaker and text of the row, from the text left after the tags are
    removed (which is not empty). *)
Definition speaker_and_text (t : string) : string * string :=
  let is_choice := startswith t "->" in
  let t1 := if is_choice then choice_text t else t in
  match match_speaker t1 with
  | Some (g1, g2) => if is_choice then ("", t1) else (strip g1, strip g2)
  | None => ("", t1)
  end.

(** The part of the loop body under [elif in_body], after the test for
    comments and commands; [line] is stripped. *)
Definition body_line (st : state) (line : string) : state * option Row :=
  let tags := findall_tags line in
  let t := strip (sub_tags line) in
  let '(lid0, others) := sort_tags tags in
  let '(lid, counter) := assign_id lid0 (line_counter st) in
  let st' := mkState (current_node_title st) (in_body st) counter in
  if String.eqb t "" then (st', None)
  else
    let '(name, t') := speaker_and_text t in
    (st', Some (mkRow lid (current_node_title st) name t' others)).

(** One iteration of [for line in lines]. *)
Definition loop_body (st : state) (raw : string) : state * option Row :=
  let line := strip raw in
  if String.eqb line "" then (st, None)
  else if startswith line "title:" then
    match split1_snd ":" line with
    | Some rest => (mkState (strip rest) false (line_counter st), None)
    | None => (st, None)
    end
  else if String.eqb (strip line) "---" then
    (mkState (current_node_title st) true (line_counter st), None)
  else if String.eqb (strip line) "===" then
    (mkState "NO_TITLE" false (line_counter st), None)
  else if in_body st then
    if startswith line "//" || startswith line "<<" then (st, None)
    else body_line st line
  else (st, None).

(** The whole loop: the final state and the rows written, in order. *)
Fixpoint run (st : state) (lines : list string) : state * list Row :=
  match lines with
  | [] => (st, [])
  | raw :: rest =>
      let '(st1, out) := loop_body st raw in
      let '(st2, rows) := run st1 rest in
      (st2, match out with Some r => r :: rows | None => rows end)
  end.

Definition extract (lines : list string) : list Row := snd (run initial lines).

End Yarn.

(** ** Files, messages and exit codes *)

Module IO.
Import Py Re Yarn.

(** What stands at a path: a text file with its decoded content, or
    something that cannot be read as one (a directory, a file without read
    permission, bytes that are not UTF-8), for which [open] or [readlines]
    raises an exception other than [FileNotFoundError]. *)
Inductive file :=
| Text (content : string)
| Unreadable.

(** What the script can observe and change: what stands at each path,
    whether [open(path, 'w')] succeeds for a path, the names [os.listdir]
    gives for the current directory (or the text of the error it raises),
    and what has been printed on the two streams. *)
Record world := mkWorld {
  files : gmap string file;
  writable : string -> bool;
  listing : string + list string;
  stdout : list string;
  stderr : list string
}.

(** The exceptions the script does not catch. *)
Inductive exn :=
| ReadError (path : string)
| WriteError (path : string).

Inductive outcome :=
| Returned
| Exited (code : nat)
| Raised (e : exn).

Definition print (msg : string) (w : world) : world :=
  mkWorld (files w) (writable w) (listing w) (stdout w ++ [msg]) (stderr w).

Definition eprint (msg : string) (w : world) : world :=
  mkWorld (files w) (writable w) (listing w) (stdout w) (stderr w ++ [msg]).

(** The file at [path] after it has been opened for writing, written and
    closed. *)
Definition write_file (path content : string) (w : world) : world :=
  mkWorld (<[path := Text content]> (files w)) (writable w) (listing w)
          (stdout w) (stderr w).

(** [f.readlines()] on a file opened in text mode with the default
    [newline]: a line ends at a line feed, a carriage return or the pair of
    them, each read as one line feed, which the line keeps. *)
Fixpoint readlines (s : string) : list string :=
  match s with
  | EmptyString => []
  | String c s' =>
      if Ascii.eqb c "010" then String "010" "" :: readlines s'
      else if Ascii.eqb c "013" then
        match s' with
        | String "010" s'' => String "010" "" :: readlines s''
        | _ => String "010" "" :: readlines s'
        end
      else
        match readlines s' with
        | [] => [String c ""]
        | l :: ls => String c l :: ls
        end
  end.

(** [s.endswith(p)] *)
Definition endswith (s p : string) : bool :=
  let n := String.length s in
  let k := String.length p in
  (k <=? n) && String.eqb (substring (n - k) k s) p.

Section Script.

(** What the script takes from Python itself: the text the [csv] writer
    produces for one row, [os.path.splitext], and the traceback the
    interpreter prints for an exception nobody catches. *)
Variable writerow : list string -> string.
Variable splitext : string -> string * string.
Variable traceback : exn -> string.

Definition csv_text (rows : list Row) : string :=
  fold_left String.append (map writerow (header :: map fields rows)) "".

(** [parse_yarn_to_csv(input_path, output_path)].  Only a missing input
    file is caught: it is reported and ends the program with code 1.  Any
    other failure to read the input raises; so does a failure to open the
    output file, which is opened once the input has been read.  Nothing is
    written in these cases. *)
Definition parse_yarn_to_csv (input_path output_path : string) (w : world)
  : world * outcome :=
  match files w !! input_path with
  | None =>
      (print ("Error: Input file not found at '" +:+ input_path +:+ "'") w,
       Exited 1)
  | Some Unreadable => (w, Raised (ReadError input_path))
  | Some (Text content) =>
      let lines := readlines content in
      if writable w output_path then
        let w1 := write_file output_path (csv_text (extract lines)) w in
        (print ("Successfully parsed |:) '" +:+ input_path
                +:+ "' and created/updated '" +:+ output_path +:+ "'") w1,
         Returned)
      else (w, Raised (WriteError output_path))
  end.

(** [not x] for an optional command line argument: [None] and the empty
    string are false. *)
Definition given (a : option string) : option string :=
  match a with
  | Some p => if String.eqb p "" then None else Some p
  | None => None
  end.

(** The block under [if __name__ == '__main__'], after the arguments are
    parsed; the result carries the exit code of the process.  An exception
    that reaches the top has its traceback printed on the error stream and
    gives code 1. *)
Definition main (input_file output_file : option string) (w : world)
  : world * nat :=
  let found :=
    match given input_file with
    | Some p => (w, inr p)
    | None =>
        let w0 := print "No input file provided. Searching current directory for a .yarn file..." w in
        match listing w0 with
        | inl e => (eprint ("Error while searching for file: " +:+ e) w0, inl 1)
        | inr names =>
            match List.filter (fun f => endswith f ".yarn") names with
            | [] => (eprint "Error: No .yarn file found in the current directory." w0, inl 1)
            | p :: _ => (print ("Found '" +:+ p +:+ "'. Using it as input.") w0, inr p)
            end
        end
    end in
  match found with
  | (w1, inl code) => (w1, code)
  | (w1, inr input_path) =>
      let output_path :=
        match given output_file with
        | Some q => q
        | None => fst (splitext input_path) +:+ ".csv"
        end in
      match parse_yarn_to_csv input_path output_path w1 with
      | (w2, Exited code) => (w2, code)
      | (w2, Returned) => (w2, 0)
      | (w2, Raised e) => (eprint (traceback e) w2, 1)
      end
  end.

End Script.

End IO.

Import Py Re Yarn IO.

(** * Notions used in the statements *)

(** The test that sends a stripped line to [body_line] when the loop is in
    a body: it is not empty, not a header or a marker, not a comment and
    not a command. *)
Definition is_content (line : string) : bool :=
  negb (String.eqb line "")
  && negb (startswith line "title:")
  && negb (String.eqb (strip line) "---")
  && negb (String.eqb (strip line) "===")
  && negb (startswith line "//" || startswith line "<<").

(** The row [body_line] writes when the text left is not empty. *)
Definition row_of (st : state) (line : string) : Row :=
  let t := strip (sub_tags line) in
  mkRow (fst (assign_id (fst (sort_tags (findall_tags line))) (line_counter st)))
        (current_node_title st)
        (fst (speaker_and_text t)) (snd (speaker_and_text t))
        (snd (sort_tags (findall_tags line))).

(** The state [body_line] leaves: only the counter can have moved. *)
Definition state_after (st : state) (line : string) : state :=
  mkState (current_node_title st) (in_body st)
          (snd (assign_id (fst (sort_tags (findall_tags line))) (line_counter st))).

(** [occurs x s]: [x] stands somewhere in [s], character for character. *)
Definition occurs (x s : string) : Prop :=
  exists pre post, s = pre +:+ x +:+ post.

(** The identifier made up from the value [k] of the counter. *)
Definition auto_id (k : nat) : string := "auto_id_" +:+ str_of_nat k.

(** The lines of a run that reach the identifier step without a [line:]
    tag: read in a body, content, and no tag passing the test.  The body
    flag is followed along the lines. *)
Fixpoint untagged_body_lines (st : state) (lines : list string) : nat :=
  match lines with
  | [] => 0
  | raw :: rest =>
      (if in_body st && is_content (strip raw)
          && negb (existsb is_line_tag (findall_tags (strip raw)))
       then 1 else 0)
      + untagged_body_lines (fst (loop_body st raw)) rest
  end.

(** The node title as the description has it, without the loop.  First the
    title a header line gives: what follows [title:], stripped. *)
Definition title_of (line : string) : option string :=
  match line with
  | String "t" (String "i" (String "t" (String "l" (String "e" (String ":" rest))))) =>
      Some (strip rest)
  | _ => None
  end.

(** Going back from the last line read: the nearest header gives its title,
    unless an end marker [===] stands nearer; with neither the title is
    [NO_TITLE]. *)
Fixpoint title_back (rev_lines : list string) : string :=
  match rev_lines with
  | [] => "NO_TITLE"
  | raw :: earlier =>
      match title_of (strip raw) with
      | Some t => t
      | None => if String.eqb (strip raw) "===" then "NO_TITLE" else title_back earlier
      end
  end.

(** The title in force once the lines [before] have been read. *)
Definition title_in_force (before : list string) : string :=
  title_back (rev before).

(** Every character of [s] passes [f]. *)
Fixpoint all_chars (f : ascii -> bool) (s : string) : bool :=
  match s with
  | EmptyString => true
  | String c s' => f c && all_chars f s'
  end.

(** [closes s]: read after an opening [<<], the string [s] lets the
    pattern finish: a closing [>>] stands in it with no line feed before
    it. *)
Definition closes (s : string) : Prop :=
  exists b c, s = b +:+ ">>" +:+ c /\ all_chars isdot b = true.

(** [has_conditional s]: the conditional pattern matches somewhere in
    [s]. *)
Definition has_conditional (s : string) : Prop :=
  exists a b c, s = a +:+ "<<" +:+ b +:+ ">>" +:+ c /\ all_chars isdot b = true.

(** [s] without its first [n] characters. *)
Fixpoint drop (n : nat) (s : string) : string :=
  match n, s with
  | S k, String _ s' => drop k s'
  | _, _ => s
  end.



(** A line as [readlines] gives it: a run without line feed, followed or not
    by one line feed. *)
Definition line_shape (l : string) : Prop :=
  exists body, all_chars isdot body = true
               /\ (l = body \/ l = body +:+ String "010" "").

(** A line the loop passes over in any state: empty once stripped, a
    comment or a command. *)
Definition passed_over (raw : string) : bool :=
  String.eqb (strip raw) ""
  || startswith (strip raw) "//" || startswith (strip raw) "<<".

(** No character of [s] is a line feed. *)
Definition no_line_feed (s : string) : bool := all_chars isdot s.

(** The characters some tags take up in a line: each tag and its hash. *)
Definition tags_chars (tags : list string) : nat :=
  fold_right (fun t n => S (String.length t) + n) 0 tags.

(** The two shapes of a text (tags removed, stripped) that leave the row
    with an empty text: a choice with nothing but whitespace left once its
    leading [-] and [>] are dropped and the conditional is removed, and a
    name followed by a colon and nothing else. *)
Definition empties_text (t : string) : Prop :=
  (startswith t "->" = true
   /\ all_chars isspace (sub_cond (strip (lstrip_chars "->" t))) = true)
  \/ (startswith t "->" = false
      /\ exists name, t = name +:+ ":" /\ name <> ""
                      /\ all_chars notcolon name = true).

(** * Properties *)

(** ** How an iteration and the whole loop unfold *)

Lemma body_line_eq st line :
  body_line st line =
  (state_after st line,
   if String.eqb (strip (sub_tags line)) "" then None else Some (row_of st line)).
Proof.
  unfold body_line, row_of, state_after.
  destruct (sort_tags (findall_tags line)) as [lid0 others]; simpl.
  destruct (assign_id lid0 (line_counter st)) as [lid counter]; simpl.
  destruct (String.eqb (strip (sub_tags line)) ""); [reflexivity|].
  destruct (speaker_and_text (strip (sub_tags line))); reflexivity.
Qed.

Lemma loop_body_content st raw :
  in_body st = true -> is_content (strip raw) = true ->
  loop_body st raw = body_line st (strip raw).
Proof.
  intros Hb Hc. unfold is_content in Hc. unfold loop_body.
  repeat (apply andb_prop in Hc; destruct Hc as [Hc ?]).
  repeat match goal with
         | H : negb ?b = true |- _ => apply negb_true_iff in H; rewrite H
         end.
  rewrite Hb. reflexivity.
Qed.

Lemma loop_body_row st raw r :
  snd (loop_body st raw) = Some r ->
  in_body st = true /\ is_content (strip raw) = true.
Proof.
  unfold loop_body, is_content.
  destruct (String.eqb (strip raw) ""); simpl; [discriminate|].
  destruct (startswith (strip raw) "title:"); simpl.
  { destruct (split1_snd ":" (strip raw)); discriminate. }
  destruct (String.eqb (strip (strip raw)) "---"); simpl; [discriminate|].
  destruct (String.eqb (strip (strip raw)) "==="); simpl; [discriminate|].
  destruct (in_body st); simpl; [|discriminate].
  destruct (startswith (strip raw) "//" || startswith (strip raw) "<<");
    simpl; [discriminate|auto].
Qed.

(** A row comes out of an iteration exactly when the loop is in a body, the
    line is content and its text is not empty once the tags are gone. *)
Lemma loop_body_row_inv st raw r :
  snd (loop_body st raw) = Some r ->
  in_body st = true /\ is_content (strip raw) = true
  /\ strip (sub_tags (strip raw)) <> "" /\ r = row_of st (strip raw).
Proof.
  intros H. destruct (loop_body_row _ _ _ H) as [Hb Hc].
  rewrite (loop_body_content _ _ Hb Hc), body_line_eq in H. simpl in H.
  destruct (String.eqb_spec (strip (sub_tags (strip raw))) ""); [discriminate|].
  inversion H. auto.
Qed.

Lemma run_app st l1 l2 :
  run st (l1 ++ l2) =
  (fst (run (fst (run st l1)) l2),
   snd (run st l1) ++ snd (run (fst (run st l1)) l2)).
Proof.
  revert st. induction l1 as [|raw l1 IH]; intros st; simpl.
  - destruct (run st l2); reflexivity.
  - destruct (loop_body st raw) as [st1 out]. rewrite IH.
    destruct (run st1 l1) as [st2 rows]; simpl.
    destruct (run st2 l2) as [st3 rows']; simpl.
    destruct out; reflexivity.
Qed.

(** Every row of a run is the row of one of its lines, written in the state
    the lines before it leave. *)
Lemma run_row st lines r :
  In r (snd (run st lines)) ->
  exists pre raw post,
    lines = pre ++ raw :: post
    /\ snd (loop_body (fst (run st pre)) raw) = Some r.
Proof.
  revert st. induction lines as [|raw lines IH]; intros st; simpl.
  - intros [].
  - destruct (loop_body st raw) as [st1 out] eqn:E.
    destruct (run st1 lines) as [st2 rows] eqn:E2. simpl.
    assert (In r rows -> exists pre raw0 post,
               raw :: lines = pre ++ raw0 :: post
               /\ snd (loop_body (fst (run st pre)) raw0) = Some r) as Hrec.
    { intros Hin. destruct (IH st1) as (pre & raw0 & post & -> & Hr).
      { rewrite E2. exact Hin. }
      exists (raw :: pre), raw0, post. split; [reflexivity|].
      simpl. rewrite E. destruct (run st1 pre); exact Hr. }
    destruct out as [r0|]; [|exact Hrec].
    intros [<-|Hin]; [|exact (Hrec Hin)].
    exists [], raw, lines. simpl. rewrite E. auto.
Qed.

(** ** Strings *)

Lemma app_nil_l (s : string) : "" +:+ s = s.
Proof. reflexivity. Qed.

Lemma app_cons (c : ascii) (a b : string) :
  String c a +:+ b = String c (a +:+ b).
Proof. reflexivity. Qed.

Lemma app_nil_r (s : string) : s +:+ "" = s.
Proof. induction s as [|c s IH]; [reflexivity|]. rewrite app_cons, IH. reflexivity. Qed.

Lemma app_assoc (a b c : string) : (a +:+ b) +:+ c = a +:+ (b +:+ c).
Proof.
  induction a as [|x a IH]; [reflexivity|].
  rewrite !app_cons, IH. reflexivity.
Qed.

Lemma takewhile_dropwhile f s : takewhile f s +:+ dropwhile f s = s.
Proof.
  induction s as [|c s IH]; simpl; [reflexivity|].
  destruct (f c); [rewrite app_cons, IH|]; reflexivity.
Qed.

Lemma occurs_cons c x s : occurs x s -> occurs x (String c s).
Proof. intros (pre & post & ->). exists (String c pre), post. reflexivity. Qed.

(** ** Tags *)

(** Every tag the scan returns stands in the line right after a hash. *)
Lemma findall_tags_from_occurs inside s t :
  In t (findall_tags_from inside s) -> occurs (String "#" t) s.
Proof.
  revert inside. induction s as [|c s IH]; intros inside; simpl; [intros []|].
  destruct (isspace c); [intros H; apply occurs_cons; eauto|].
  destruct inside; [intros H; apply occurs_cons; eauto|].
  destruct (Ascii.eqb_spec c "#") as [->|]; simpl;
    [|intros H; apply occurs_cons; eauto].
  destruct (tag_follows s); [|intros H; apply occurs_cons; eauto].
  intros [<-|H]; [|apply occurs_cons; eauto].
  exists "", (dropwhile nonspace s).
  rewrite app_nil_l, app_cons, takewhile_dropwhile. reflexivity.
Qed.

Lemma last_cons_indep (A : Type) (x : A) (l : list A) (d d' : A) :
  List.last (x :: l) d = List.last (x :: l) d'.
Proof.
  revert x. induction l as [|y l IH]; intros x; [reflexivity|].
  change (List.last (y :: l) d = List.last (y :: l) d'). apply IH.
Qed.

Lemma last_cons_default (A : Type) (x : A) (l : list A) (d : A) :
  List.last (x :: l) d = List.last l x.
Proof.
  destruct l as [|y l]; [reflexivity|].
  change (List.last (y :: l) d = List.last (y :: l) x). apply last_cons_indep.
Qed.

(** The loop over the tags, said at once: the identifier is the last tag
    that passes the test, the others are kept in order. *)
Lemma fold_sort_tag tags lid others :
  fold_left sort_tag tags (lid, others) =
  (List.last (List.filter is_line_tag tags) lid,
   others ++ List.filter (fun t => negb (is_line_tag t)) tags).
Proof.
  revert lid others. induction tags as [|t tags IH]; intros lid others.
  - simpl. rewrite List.app_nil_r. reflexivity.
  - change (fold_left sort_tag (t :: tags) (lid, others))
      with (fold_left sort_tag tags (sort_tag (lid, others) t)).
    unfold sort_tag. simpl List.filter. destruct (is_line_tag t) eqn:E; simpl negb; cbv iota.
    + simpl fst; simpl snd. rewrite IH, last_cons_default. reflexivity.
    + simpl fst; simpl snd. rewrite IH, <- List.app_assoc. reflexivity.
Qed.

Lemma sort_tags_eq tags :
  sort_tags tags =
  (List.last (List.filter is_line_tag tags) "",
   List.filter (fun t => negb (is_line_tag t)) tags).
Proof. unfold sort_tags. rewrite fold_sort_tag. reflexivity. Qed.

Lemma last_In (A : Type) (x : A) (l : list A) (d : A) : In (List.last (x :: l) d) (x :: l).
Proof.
  revert x. induction l as [|y l IH]; intros x; [left; reflexivity|].
  right. change (In (List.last (y :: l) d) (y :: l)). apply IH.
Qed.

Lemma is_line_tag_nonempty t : is_line_tag t = true -> t <> "".
Proof. intros H ->. discriminate. Qed.

(** With a tag that passes the test among [tags], the identifier found is
    one of them, and not the empty string. *)
Lemma sort_tags_found tags :
  existsb is_line_tag tags = true ->
  let lid := fst (sort_tags tags) in
  In lid tags /\ is_line_tag lid = true /\ lid <> "".
Proof.
  intros H. rewrite sort_tags_eq. simpl.
  destruct (List.filter is_line_tag tags) as [|x l] eqn:F.
  - exfalso. apply existsb_exists in H. destruct H as (x & Hin & Hx).
    assert (In x (List.filter is_line_tag tags)) as Hf by (apply filter_In; auto).
    rewrite F in Hf. destruct Hf.
  - pose proof (last_In _ x l "") as Hl. rewrite <- F in Hl at 2.
    apply filter_In in Hl. destruct Hl as [Hin Ht].
    auto using is_line_tag_nonempty.
Qed.

Lemma sort_tags_none tags :
  existsb is_line_tag tags = false -> fst (sort_tags tags) = "".
Proof.
  intros H. rewrite sort_tags_eq. simpl.
  destruct (List.filter is_line_tag tags) as [|x l] eqn:F; [reflexivity|].
  assert (In x (List.filter is_line_tag tags)) as Hf by (rewrite F; left; reflexivity).
  apply filter_In in Hf. destruct Hf as [Hin Hx].
  assert (existsb is_line_tag tags = true) by (apply existsb_exists; eauto).
  congruence.
Qed.

Lemma assign_id_found lid n : lid <> "" -> assign_id lid n = (lid, n).
Proof.
  intros H. unfold assign_id. destruct (String.eqb_spec lid ""); [contradiction|reflexivity].
Qed.

Lemma assign_id_none n :
  assign_id "" n = ("auto_id_" +:+ str_of_nat n, S n).
Proof. reflexivity. Qed.

(** ** The examples of the description, run *)

Example speaker_line_example :
  extract ["title: Start"; "---"; "Alice: Hello there. #line:001 #happy"; "==="]
  = [mkRow "line:001" "Start" "Alice" "Hello there." ["happy"]].
Proof. vm_compute. reflexivity. Qed.

Example fields_example :
  fields (mkRow "line:001" "Start" "Alice" "Hello there." ["happy"; "loud"])
  = ["line:001"; "Start"; "Alice"; "Hello there."; "happy; loud"].
Proof. reflexivity. Qed.

Example outside_body_example :
  extract ["Alice: Hi"; "title: Start"; "Bob: Hi #line:1"; "==="; "-> Leave"] = [].
Proof. vm_compute. reflexivity. Qed.

Example auto_ids_example :
  map line_id (extract ["---"; "One"; "// note"; "<<jump There>>"; "Two"; "-> Three"])
  = ["auto_id_0"; "auto_id_1"; "auto_id_2"].
Proof. vm_compute. reflexivity. Qed.

Example tags_scan_example :
  findall_tags "a#b ##c # d #e#f" = ["b"; "#c"; "e#f"]
  /\ sub_tags "a#b ##c # d #e#f" = "a  # d ".
Proof. split; vm_compute; reflexivity. Qed.

(** ** C1: the text of a row *)

(** The guard against an empty text stands before the choice and speaker
    steps, so these two can still empty the text: a speaker with nothing
    after the colon, and a choice made of a conditional only. *)
Lemma C1_empty_text_rows :
  extract ["---"; "Alice:"; "-> <<if $x>>"] =
    [mkRow "auto_id_0" "NO_TITLE" "Alice" "" [];
     mkRow "auto_id_1" "NO_TITLE" "" "" []]
  /\ ~ (forall r, In r (extract ["---"; "Alice:"; "-> <<if $x>>"]) -> text r <> "").
Proof.
  split; [vm_compute; reflexivity|].
  intros H. apply (H (mkRow "auto_id_0" "NO_TITLE" "Alice" "" [])); [|reflexivity].
  vm_compute. left. reflexivity.
Qed.

(** The statement that holds in its place, [C1_text_empty_only_when], stands
    at the end of the part on the claims, after the lemmas it needs. *)

(** ** C2: which tag becomes the identifier *)

(** With two [line:] tags on a line the loop keeps the second. *)
Lemma C2_last_tag_wins :
  extract ["---"; "Hi #line:a #mood #line:b"] =
    [mkRow "line:b" "NO_TITLE" "" "Hi" ["mood"]]
  /\ findall_tags "Hi #line:a #mood #line:b" = ["line:a"; "mood"; "line:b"].
Proof. split; vm_compute; reflexivity. Qed.

(** C2 (amended): when a body line that yields a row carries at least one
    tag beginning, case-insensitively, with [line:], the identifier of the
    row is the last such tag in order of appearance, exactly as it stands
    in the line after its hash; the tags that do not begin with [line:] are
    the tags of the row, in their order. *)
Theorem C2_identifier_is_last_line_tag (st : state) (raw : string) (r : Row) :
  snd (loop_body st raw) = Some r ->
  existsb is_line_tag (findall_tags (strip raw)) = true ->
  line_id r = List.last (List.filter is_line_tag (findall_tags (strip raw))) ""
  /\ In (line_id r) (findall_tags (strip raw))
  /\ is_line_tag (line_id r) = true
  /\ occurs (String "#" (line_id r)) (strip raw)
  /\ other_tags r =
     List.filter (fun t => negb (is_line_tag t)) (findall_tags (strip raw)).
Proof.
  intros Hr Hex. apply loop_body_row_inv in Hr. destruct Hr as (_ & _ & _ & ->).
  destruct (sort_tags_found _ Hex) as (Hin & Htag & Hne).
  unfold row_of; simpl. rewrite (assign_id_found _ _ Hne). simpl.
  split; [rewrite sort_tags_eq; reflexivity|].
  split; [exact Hin|]. split; [exact Htag|].
  split; [eapply findall_tags_from_occurs; exact Hin|].
  rewrite sort_tags_eq. reflexivity.
Qed.

Lemma C2_identifier_is_last_line_tag_witness :
  let st := mkState "Start" true 0 in
  let raw := "Hi #LINE:a #mood #Line:B" in
  let r := mkRow "Line:B" "Start" "" "Hi" ["mood"] in
  snd (loop_body st raw) = Some r
  /\ existsb is_line_tag (findall_tags (strip raw)) = true
  /\ (line_id r = List.last (List.filter is_line_tag (findall_tags (strip raw))) ""
      /\ In (line_id r) (findall_tags (strip raw))
      /\ is_line_tag (line_id r) = true
      /\ occurs (String "#" (line_id r)) (strip raw)
      /\ other_tags r =
         List.filter (fun t => negb (is_line_tag t)) (findall_tags (strip raw))).
Proof.
  intros st raw r.
  split; [vm_compute; reflexivity|].
  split; [vm_compute; reflexivity|].
  apply (C2_identifier_is_last_line_tag st raw r); vm_compute; reflexivity.
Defined.

(** ** Identifiers: the two kinds and the counter *)

Lemma str_of_nat_inj n m : str_of_nat n = str_of_nat m -> n = m.
Proof.
  unfold str_of_nat. intros H.
  assert (Some (Nat.to_uint n) = Some (Nat.to_uint m)) as E
    by (rewrite <- !NilEmpty.usu, H; reflexivity).
  inversion E as [E']. apply (f_equal Nat.of_uint) in E'.
  rewrite !Unsigned.of_to in E'. exact E'.
Qed.

Lemma auto_id_inj k k' : auto_id k = auto_id k' -> k = k'.
Proof. unfold auto_id. intros H. inversion H. apply str_of_nat_inj. assumption. Qed.

Lemma auto_id_not_line_tag k : is_line_tag (auto_id k) = false.
Proof. reflexivity. Qed.

(** The identifier of a row and the counter after its line, by whether the
    line carries a [line:] tag. *)
Lemma row_of_id st line :
  if existsb is_line_tag (findall_tags line)
  then is_line_tag (line_id (row_of st line)) = true
       /\ In (line_id (row_of st line)) (findall_tags line)
       /\ line_counter (state_after st line) = line_counter st
  else line_id (row_of st line) = auto_id (line_counter st)
       /\ line_counter (state_after st line) = S (line_counter st).
Proof.
  unfold row_of, state_after; simpl.
  destruct (existsb is_line_tag (findall_tags line)) eqn:E.
  - destruct (sort_tags_found _ E) as (Hin & Htag & Hne).
    rewrite (assign_id_found _ _ Hne). auto.
  - rewrite (sort_tags_none _ E), assign_id_none. auto.
Qed.

Lemma loop_body_counter st raw :
  line_counter st <= line_counter (fst (loop_body st raw)).
Proof.
  unfold loop_body.
  destruct (String.eqb (strip raw) ""); simpl; [lia|].
  destruct (startswith (strip raw) "title:"); simpl.
  { destruct (split1_snd ":" (strip raw)); simpl; lia. }
  destruct (String.eqb (strip (strip raw)) "---"); simpl; [lia|].
  destruct (String.eqb (strip (strip raw)) "==="); simpl; [lia|].
  destruct (in_body st); simpl; [|lia].
  destruct (startswith (strip raw) "//" || startswith (strip raw) "<<");
    simpl; [lia|].
  rewrite body_line_eq. simpl.
  pose proof (row_of_id st (strip raw)) as H.
  destruct (existsb is_line_tag (findall_tags (strip raw))); simpl in H; lia.
Qed.

Lemma run_counter st lines :
  line_counter st <= line_counter (fst (run st lines)).
Proof.
  revert st. induction lines as [|raw lines IH]; intros st; simpl; [lia|].
  pose proof (loop_body_counter st raw) as H1.
  destruct (loop_body st raw) as [st1 out]. specialize (IH st1).
  destruct (run st1 lines) as [st2 rows]; simpl in *. lia.
Qed.

(** What an iteration that writes a row does to the identifier and the
    counter. *)
Lemma loop_body_id st raw r :
  snd (loop_body st raw) = Some r ->
  (is_line_tag (line_id r) = true
   /\ In (line_id r) (findall_tags (strip raw))
   /\ line_counter (fst (loop_body st raw)) = line_counter st)
  \/ (line_id r = auto_id (line_counter st)
      /\ line_counter (fst (loop_body st raw)) = S (line_counter st)).
Proof.
  intros H. pose proof (loop_body_row_inv _ _ _ H) as (Hb & Hc & _ & ->).
  rewrite (loop_body_content _ _ Hb Hc), body_line_eq. simpl.
  pose proof (row_of_id st (strip raw)) as Hid.
  destruct (existsb is_line_tag (findall_tags (strip raw))); [left|right]; tauto.
Qed.

(** A made-up identifier in the rows of a run carries a number between the
    counter at the start and the counter at the end. *)
Lemma run_auto_range st lines r :
  In r (snd (run st lines)) -> is_line_tag (line_id r) = false ->
  exists k, line_id r = auto_id k
            /\ line_counter st <= k < line_counter (fst (run st lines)).
Proof.
  revert st. induction lines as [|raw lines IH]; intros st; simpl; [intros []|].
  pose proof (loop_body_counter st raw) as Hc.
  pose proof (loop_body_id st raw) as Hid.
  destruct (loop_body st raw) as [st1 out].
  pose proof (run_counter st1 lines) as Hc'. specialize (IH st1).
  destruct (run st1 lines) as [st2 rows]; simpl in *.
  assert (In r rows -> is_line_tag (line_id r) = false ->
          exists k, line_id r = auto_id k /\ line_counter st <= k < line_counter st2) as Hrec.
  { intros Hin Hf. destruct (IH Hin Hf) as (k & Hk & Hr). exists k. split; [exact Hk|lia]. }
  destruct out as [r0|]; [|exact Hrec].
  intros [<-|Hin] Hf; [|exact (Hrec Hin Hf)].
  destruct (Hid r0 eq_refl) as [(Ht & _)|(Hk & Hs)]; [congruence|].
  exists (line_counter st). split; [exact Hk|lia].
Qed.

(** ** C3: identifiers within a run *)

(** The same tag on two lines gives the same identifier twice. *)
Lemma C3_repeated_tag :
  extract ["---"; "Hello #line:1"; "Bye #line:1"] =
    [mkRow "line:1" "NO_TITLE" "" "Hello" [];
     mkRow "line:1" "NO_TITLE" "" "Bye" []]
  /\ ~ (forall i j ri rj,
          nth_error (extract ["---"; "Hello #line:1"; "Bye #line:1"]) i = Some ri ->
          nth_error (extract ["---"; "Hello #line:1"; "Bye #line:1"]) j = Some rj ->
          i <> j -> line_id ri <> line_id rj).
Proof.
  split; [vm_compute; reflexivity|].
  intros H. apply (H 0 1 (mkRow "line:1" "NO_TITLE" "" "Hello" [])
                     (mkRow "line:1" "NO_TITLE" "" "Bye" [])); try reflexivity.
  discriminate.
Qed.

Lemma run_ids_distinct st lines i j ri rj :
  nth_error (snd (run st lines)) i = Some ri ->
  nth_error (snd (run st lines)) j = Some rj ->
  i < j ->
  is_line_tag (line_id ri) = false \/ is_line_tag (line_id rj) = false ->
  line_id ri <> line_id rj.
Proof.
  revert st i j. induction lines as [|raw lines IH]; intros st i j; simpl.
  { destruct i; discriminate. }
  pose proof (loop_body_id st raw) as Hid.
  destruct (loop_body st raw) as [st1 out].
  pose proof (run_auto_range st1 lines) as Hrange. specialize (IH st1).
  destruct (run st1 lines) as [st2 rows]; simpl in *.
  destruct out as [r0|]; [|apply IH].
  intros Hi Hj Hlt Hkind.
  destruct j as [|j]; [lia|]. simpl in Hj.
  destruct i as [|i]; simpl in Hi.
  - inversion Hi; subst r0. apply nth_error_In in Hj.
    destruct (Hid ri eq_refl) as [(Ht & _ & _)|(Hk & Hs)].
    + destruct Hkind as [Hf|Hf]; congruence.
    + destruct (is_line_tag (line_id rj)) eqn:Hrj.
      * intros E. rewrite <- E, Hk, auto_id_not_line_tag in Hrj. discriminate.
      * destruct (Hrange rj Hj Hrj) as (k & Hk' & Hr).
        rewrite Hk, Hk'. intros E. apply auto_id_inj in E. lia.
  - apply (IH i j); [assumption|assumption|lia|assumption].
Qed.

(** C3 (amended): within a run the made-up identifiers are unique: two rows
    at different places of the output have different identifiers as soon
    as one of the two identifiers does not begin with [line:], that is, was
    made up from the counter.  Two rows whose identifiers both come from
    tags have whatever the author wrote. *)
Theorem C3_synthesized_ids_unique (lines : list string) (i j : nat) (ri rj : Row) :
  nth_error (extract lines) i = Some ri ->
  nth_error (extract lines) j = Some rj ->
  i <> j ->
  is_line_tag (line_id ri) = false ->
  line_id ri <> line_id rj.
Proof.
  intros Hi Hj Hne Hf. unfold extract in *.
  destruct (Nat.lt_total i j) as [Hlt|[->|Hlt]]; [|contradiction|].
  - eapply run_ids_distinct; eauto.
  - intros E. symmetry in E. revert E. eapply run_ids_distinct; eauto.
Qed.

Lemma C3_synthesized_ids_unique_witness :
  let lines := ["---"; "Hello"; "#skipped"; "Bye #line:auto_id_0"; "Again"] in
  let ri := mkRow "auto_id_0" "NO_TITLE" "" "Hello" [] in
  let rj := mkRow "auto_id_2" "NO_TITLE" "" "Again" [] in
  nth_error (extract lines) 0 = Some ri
  /\ nth_error (extract lines) 2 = Some rj
  /\ 0 <> 2
  /\ is_line_tag (line_id ri) = false
  /\ line_id ri <> line_id rj.
Proof.
  intros lines ri rj.
  split; [vm_compute; reflexivity|].
  split; [vm_compute; reflexivity|].
  split; [lia|].
  split; [vm_compute; reflexivity|].
  apply (C3_synthesized_ids_unique lines 0 2 ri rj);
    [vm_compute; reflexivity|vm_compute; reflexivity|lia|vm_compute; reflexivity].
Defined.

(** ** C9: made-up and tagged identifiers never meet *)

(** C9: every row of a run is written for one of the lines.  If that line
    carries a tag beginning, case-insensitively, with [line:], the
    identifier is one of these tags and so begins with [line:]; if not, it
    is [auto_id_] followed by the decimal value the counter had when the
    line was read, and does not begin with [line:].  An identifier of one
    kind is therefore never equal to an identifier of the other kind in the
    run. *)
Theorem C9_identifier_kinds_disjoint (lines : list string) (r : Row) :
  In r (extract lines) ->
  exists pre raw post,
    lines = pre ++ raw :: post
    /\ if existsb is_line_tag (findall_tags (strip raw))
       then In (line_id r) (findall_tags (strip raw))
            /\ is_line_tag (line_id r) = true
            /\ (forall r' k, In r' (extract lines) ->
                  line_id r' = "auto_id_" +:+ str_of_nat k ->
                  line_id r <> line_id r')
       else line_id r = "auto_id_" +:+ str_of_nat (line_counter (fst (run initial pre)))
            /\ is_line_tag (line_id r) = false
            /\ (forall r', In r' (extract lines) ->
                  is_line_tag (line_id r') = true ->
                  line_id r <> line_id r').
Proof.
  intros Hin. apply run_row in Hin. destruct Hin as (pre & raw & post & -> & Hr).
  exists pre, raw, post. split; [reflexivity|].
  apply loop_body_row_inv in Hr. destruct Hr as (_ & _ & _ & ->).
  pose proof (row_of_id (fst (run initial pre)) (strip raw)) as Hid.
  destruct (existsb is_line_tag (findall_tags (strip raw))).
  - destruct Hid as (Ht & Hin & _). split; [exact Hin|]. split; [exact Ht|].
    intros r' k _ Hk E. rewrite E, Hk in Ht.
    change (is_line_tag (auto_id k) = true) in Ht.
    rewrite auto_id_not_line_tag in Ht. discriminate.
  - destruct Hid as (Hk & _). split; [exact Hk|].
    split; [rewrite Hk; apply auto_id_not_line_tag|].
    intros r' _ Ht E. rewrite <- E, Hk, auto_id_not_line_tag in Ht. discriminate.
Qed.

Lemma C9_identifier_kinds_disjoint_witness :
  let lines := ["---"; "Hello"; "Bye #LINE:auto_id_0"] in
  let r := mkRow "LINE:auto_id_0" "NO_TITLE" "" "Bye" [] in
  In r (extract lines)
  /\ exists pre raw post,
    lines = pre ++ raw :: post
    /\ if existsb is_line_tag (findall_tags (strip raw))
       then In (line_id r) (findall_tags (strip raw))
            /\ is_line_tag (line_id r) = true
            /\ (forall r' k, In r' (extract lines) ->
                  line_id r' = "auto_id_" +:+ str_of_nat k ->
                  line_id r <> line_id r')
       else line_id r = "auto_id_" +:+ str_of_nat (line_counter (fst (run initial pre)))
            /\ is_line_tag (line_id r) = false
            /\ (forall r', In r' (extract lines) ->
                  is_line_tag (line_id r') = true ->
                  line_id r <> line_id r').
Proof.
  intros lines r. split.
  - vm_compute. right. left. reflexivity.
  - apply (C9_identifier_kinds_disjoint lines r).
    vm_compute. right. left. reflexivity.
Defined.

(** ** C4: the counter and the lines that are dropped *)

Lemma loop_body_not_content st raw :
  in_body st && is_content (strip raw) = false ->
  line_counter (fst (loop_body st raw)) = line_counter st
  /\ snd (loop_body st raw) = None.
Proof.
  unfold loop_body, is_content.
  destruct (String.eqb (strip raw) ""); simpl; [auto|].
  destruct (startswith (strip raw) "title:"); simpl.
  { destruct (split1_snd ":" (strip raw)); simpl; auto. }
  destruct (String.eqb (strip (strip raw)) "---"); simpl; [auto|].
  destruct (String.eqb (strip (strip raw)) "==="); simpl; [auto|].
  destruct (in_body st); simpl; [|auto].
  destruct (startswith (strip raw) "//" || startswith (strip raw) "<<");
    simpl; [auto|discriminate].
Qed.

Lemma loop_body_counter_step st raw :
  line_counter (fst (loop_body st raw)) =
  line_counter st
  + (if in_body st && is_content (strip raw)
        && negb (existsb is_line_tag (findall_tags (strip raw)))
     then 1 else 0).
Proof.
  destruct (in_body st && is_content (strip raw)) eqn:E.
  - apply andb_prop in E. destruct E as [Hb Hc].
    rewrite (loop_body_content _ _ Hb Hc), body_line_eq. simpl fst.
    pose proof (row_of_id st (strip raw)) as Hid.
    destruct (existsb is_line_tag (findall_tags (strip raw)));
      simpl in *; [destruct Hid as (_ & _ & ->)|destruct Hid as (_ & ->)]; lia.
  - destruct (loop_body_not_content _ _ E) as [-> _]. simpl. lia.
Qed.

Lemma run_counter_count st lines :
  line_counter (fst (run st lines)) = line_counter st + untagged_body_lines st lines.
Proof.
  revert st. induction lines as [|raw lines IH]; intros st; simpl; [lia|].
  pose proof (loop_body_counter_step st raw) as H1.
  destruct (loop_body st raw) as [st1 out]. specialize (IH st1).
  destruct (run st1 lines) as [st2 rows]; simpl in *. lia.
Qed.

(** C4: for a line read in a body that is neither a header, a marker, a
    comment nor a command, the counter goes up by one exactly when the line
    has no [line:] tag, whether or not a row is written; no row is written
    when the text is empty once the tags are removed, and otherwise the row
    written without a [line:] tag takes the value the counter had.  Over a
    run the counter therefore counts the body lines without such a tag,
    dropped ones included, and the numbers in the rows can skip: here the
    line [#mood] takes number 0 and writes nothing. *)
Theorem C4_counter_advances_once_per_untagged_body_line
    (st : state) (raw : string) :
  in_body st = true ->
  is_content (strip raw) = true ->
  line_counter (fst (loop_body st raw)) =
    (if existsb is_line_tag (findall_tags (strip raw))
     then line_counter st else S (line_counter st))
  /\ (strip (sub_tags (strip raw)) = "" -> snd (loop_body st raw) = None)
  /\ (strip (sub_tags (strip raw)) <> "" ->
      existsb is_line_tag (findall_tags (strip raw)) = false ->
      exists r, snd (loop_body st raw) = Some r
                /\ line_id r = "auto_id_" +:+ str_of_nat (line_counter st))
  /\ (forall lines,
        line_counter (fst (run st lines)) =
        line_counter st + untagged_body_lines st lines)
  /\ run initial ["---"; "#mood"; "Hi"] =
       (mkState "NO_TITLE" true 2, [mkRow "auto_id_1" "NO_TITLE" "" "Hi" []]).
Proof.
  intros Hb Hc.
  rewrite (loop_body_content _ _ Hb Hc), body_line_eq. simpl fst; simpl snd.
  pose proof (row_of_id st (strip raw)) as Hid.
  split.
  { destruct (existsb is_line_tag (findall_tags (strip raw))); tauto. }
  split.
  { intros ->. reflexivity. }
  split.
  { intros Hne Hex. rewrite Hex in Hid.
    destruct (String.eqb_spec (strip (sub_tags (strip raw))) ""); [contradiction|].
    eexists. split; [reflexivity|]. apply Hid. }
  split; [apply run_counter_count|].
  vm_compute. reflexivity.
Qed.

Lemma C4_counter_advances_once_per_untagged_body_line_witness :
  let st := mkState "Start" true 7 in
  let raw := "  #mood #loud  " in
  in_body st = true
  /\ is_content (strip raw) = true
  /\ strip (sub_tags (strip raw)) = ""
  /\ line_counter (fst (loop_body st raw)) = 8
  /\ snd (loop_body st raw) = None.
Proof.
  intros st raw.
  destruct (C4_counter_advances_once_per_untagged_body_line st raw)
    as (Hcount & Hnone & _); [reflexivity|vm_compute; reflexivity|].
  split; [reflexivity|]. split; [vm_compute; reflexivity|].
  split; [vm_compute; reflexivity|].
  split; [exact Hcount|]. apply Hnone. vm_compute. reflexivity.
Defined.

(** ** Stripping *)

Lemma lstrip_head s :
  lstrip s = "" \/ exists c s', lstrip s = String c s' /\ isspace c = false.
Proof.
  unfold lstrip. induction s as [|c s IH]; simpl; [left; reflexivity|].
  destruct (isspace c) eqn:E; [exact IH|]. right. eauto.
Qed.

Lemma rstrip_idem s : rstrip (rstrip s) = rstrip s.
Proof.
  induction s as [|c s IH]; simpl; [reflexivity|].
  destruct (rstrip s) as [|d r] eqn:E.
  - destruct (isspace c) eqn:Ec; simpl; [reflexivity|]. rewrite Ec. reflexivity.
  - simpl in IH. simpl. destruct (rstrip r) as [|e r'] eqn:Er.
    + destruct (isspace d); [discriminate|]. rewrite IH. reflexivity.
    + rewrite IH. reflexivity.
Qed.

Lemma rstrip_head c s :
  isspace c = false -> exists r, rstrip (String c s) = String c r.
Proof.
  intros Hc. simpl. destruct (rstrip s); [rewrite Hc|]; eauto.
Qed.

(** A stripped string is empty or begins with a character that is not
    whitespace. *)
Lemma strip_head s :
  strip s = "" \/ exists c s', strip s = String c s' /\ isspace c = false.
Proof.
  unfold strip. destruct (lstrip_head s) as [->|(c & s' & -> & Hc)];
    [left; reflexivity|].
  right. destruct (rstrip_head c s' Hc) as (r & ->). eauto.
Qed.

Lemma strip_idem s : strip (strip s) = strip s.
Proof.
  destruct (strip_head s) as [E|(c & s' & E & Hc)].
  - rewrite E. reflexivity.
  - unfold strip at 1. unfold lstrip. rewrite E. simpl dropwhile. rewrite Hc.
    rewrite <- E. unfold strip. apply rstrip_idem.
Qed.

(** ** C5: the node title of a row *)

Lemma startswith_title line :
  startswith line "title:" = true ->
  exists rest, line = "title:" +:+ rest
               /\ split1_snd ":" line = Some rest
               /\ title_of line = Some (strip rest).
Proof.
  intros H. cbv [startswith] in H.
  do 6 (destruct line as [|? line]; [discriminate|];
        apply andb_prop in H; destruct H as [E H];
        apply Ascii.eqb_eq in E; subst).
  exists line. split; [reflexivity|]. split; reflexivity.
Qed.

Lemma not_startswith_title line :
  startswith line "title:" = false -> title_of line = None.
Proof.
  intros H. destruct (title_of line) eqn:E; [|reflexivity].
  unfold title_of in E.
  repeat match type of E with
         | match ?s with EmptyString => _ | String _ _ => _ end = Some _ =>
             destruct s; [discriminate|]
         | match ?a with Ascii _ _ _ _ _ _ _ _ => _ end = Some _ => destruct a
         | (if ?b then _ else _) = Some _ => destruct b; try discriminate
         end.
Qed.

Lemma loop_body_title st raw :
  current_node_title (fst (loop_body st raw)) =
  match title_of (strip raw) with
  | Some t => t
  | None => if String.eqb (strip raw) "===" then "NO_TITLE"
            else current_node_title st
  end.
Proof.
  unfold loop_body.
  destruct (String.eqb_spec (strip raw) "") as [->|_]; [reflexivity|].
  destruct (startswith (strip raw) "title:") eqn:Et.
  { destruct (startswith_title _ Et) as (rest & _ & -> & ->). reflexivity. }
  rewrite (not_startswith_title _ Et), strip_idem.
  destruct (String.eqb_spec (strip raw) "---") as [->|_]; [reflexivity|].
  destruct (String.eqb (strip raw) "==="); [reflexivity|].
  destruct (in_body st); [|reflexivity].
  destruct (startswith (strip raw) "//" || startswith (strip raw) "<<");
    [reflexivity|].
  rewrite body_line_eq. reflexivity.
Qed.

Lemma run_single st raw : fst (run st [raw]) = fst (loop_body st raw).
Proof. simpl. destruct (loop_body st raw). reflexivity. Qed.

(** The title variable after some lines is the title in force after
    them. *)
Lemma run_title (before : list string) :
  current_node_title (fst (run initial before)) = title_in_force before.
Proof.
  induction before as [|raw before IH] using rev_ind; [reflexivity|].
  rewrite run_app. cbn [fst]. rewrite run_single, loop_body_title.
  unfold title_in_force. rewrite rev_unit. simpl.
  destruct (title_of (strip raw)); [reflexivity|].
  destruct (String.eqb (strip raw) "==="); [reflexivity|]. exact IH.
Qed.

Lemma title_back_no_header rev_lines :
  (forall raw, In raw rev_lines -> title_of (strip raw) = None) ->
  title_back rev_lines = "NO_TITLE".
Proof.
  induction rev_lines as [|raw l IH]; intros H; simpl; [reflexivity|].
  rewrite (H raw (or_introl eq_refl)).
  destruct (String.eqb (strip raw) "==="); [reflexivity|].
  apply IH. intros raw' Hin. apply H. right. exact Hin.
Qed.

(** C5: the [node_title] of a row is the title in force when its line was
    read: going back from that line, the title of the nearest [title:]
    header (what follows its first colon, stripped) unless an end marker
    [===] stands nearer, and [NO_TITLE] if there is neither.  A [title:]
    header sets the title and leaves the body; a line that is [===] leaves
    the body and puts the title back to [NO_TITLE]; with no header before
    it a row carries [NO_TITLE]. *)
Theorem C5_node_title_in_force :
  (forall lines r, In r (extract lines) ->
     exists before raw after,
       lines = before ++ raw :: after
       /\ snd (loop_body (fst (run initial before)) raw) = Some r
       /\ node_title r = title_in_force before)
  /\ (forall st raw rest, strip raw = "title:" +:+ rest ->
        split1_snd ":" (strip raw) = Some rest
        /\ loop_body st raw = (mkState (strip rest) false (line_counter st), None))
  /\ (forall st raw, strip raw = "===" ->
        loop_body st raw = (mkState "NO_TITLE" false (line_counter st), None))
  /\ (forall before,
        (forall raw, In raw before -> startswith (strip raw) "title:" = false) ->
        title_in_force before = "NO_TITLE").
Proof.
  split; [|split; [|split]].
  - intros lines r Hin. apply run_row in Hin.
    destruct Hin as (before & raw & after & -> & Hr).
    exists before, raw, after. split; [reflexivity|]. split; [exact Hr|].
    apply loop_body_row_inv in Hr. destruct Hr as (_ & _ & _ & ->).
    simpl. apply run_title.
  - intros st raw rest E. unfold loop_body. rewrite E. split; reflexivity.
  - intros st raw E. unfold loop_body. rewrite E. reflexivity.
  - intros before H. unfold title_in_force. apply title_back_no_header.
    intros raw Hin. apply not_startswith_title, H. apply in_rev. exact Hin.
Qed.

Lemma C5_node_title_in_force_witness :
  let lines := ["title: Start"; "---"; "Bob: Hi"; "==="; "stray"; "---"; "Yo"] in
  extract lines = [mkRow "auto_id_0" "Start" "Bob" "Hi" [];
                   mkRow "auto_id_1" "NO_TITLE" "" "Yo" []]
  /\ exists before raw after,
       lines = before ++ raw :: after
       /\ snd (loop_body (fst (run initial before)) raw)
          = Some (mkRow "auto_id_0" "Start" "Bob" "Hi" [])
       /\ node_title (mkRow "auto_id_0" "Start" "Bob" "Hi" []) = title_in_force before.
Proof.
  intros lines. split; [vm_compute; reflexivity|].
  apply (proj1 C5_node_title_in_force lines).
  vm_compute. left. reflexivity.
Defined.

(** ** The conditional pattern *)

Lemma closes_cons c s : isdot c = true -> closes s -> closes (String c s).
Proof.
  intros Hc (b & d & -> & Hb). exists (String c b), d.
  split; [reflexivity|]. simpl. rewrite Hc, Hb. reflexivity.
Qed.

Lemma closes_inv s :
  closes s ->
  (exists r, s = String ">" (String ">" r))
  \/ (exists c s', s = String c s' /\ isdot c = true /\ closes s').
Proof.
  intros ([|x b] & d & -> & Hb).
  - left. exists d. reflexivity.
  - right. simpl in Hb. apply andb_prop in Hb. destruct Hb as [Hx Hb].
    exists x, (b +:+ ">>" +:+ d). split; [reflexivity|]. split; [exact Hx|].
    exists b, d. auto.
Qed.

Lemma not_closes_nil : ~ closes "".
Proof. intros H. apply closes_inv in H. destruct H as [(r & E)|(c & s' & E & _)]; discriminate. Qed.

Lemma dotstar_close_cons c s :
  dotstar_close (String c s) =
  match (if isdot c then dotstar_close s else None) with
  | Some k => Some (S k)
  | None => if startswith (String c s) ">>" then Some 0 else None
  end.
Proof. reflexivity. Qed.

Lemma startswith_close c s :
  startswith (String c s) ">>" = true -> c = ">"%char /\ exists r, s = String ">" r.
Proof.
  cbv [startswith]. intros H. apply andb_prop in H. destruct H as [E1 H].
  apply Ascii.eqb_eq in E1. destruct s as [|d s]; [discriminate|].
  apply andb_prop in H. destruct H as [E2 _]. apply Ascii.eqb_eq in E2.
  subst. eauto.
Qed.

Lemma dotstar_close_None s : dotstar_close s = None -> ~ closes s.
Proof.
  induction s as [|c s IH]; [intros _; apply not_closes_nil|].
  rewrite dotstar_close_cons. intros H Hc. apply closes_inv in Hc.
  destruct Hc as [(r & E)|(x & s' & E & Hx & Hs')].
  - inversion E; subst.
    destruct (if isdot ">" then dotstar_close (String ">" r) else None);
      [discriminate|].
    change (startswith (String ">" (String ">" r)) ">>") with true in H.
    discriminate.
  - inversion E; subst. rewrite Hx in H.
    destruct (dotstar_close s') eqn:Ed; [discriminate|]. apply IH; auto.
Qed.

(** The greedy run stops at the last closing [>>] it can reach: what
    follows the match cannot close, even with one [>] lent to it. *)
Lemma dotstar_close_Some s k :
  dotstar_close s = Some k ->
  exists m rest,
    s = m +:+ ">>" +:+ rest /\ String.length m = k
    /\ all_chars isdot m = true /\ ~ closes (String ">" rest).
Proof.
  revert k. induction s as [|c s IH]; intros k; [discriminate|].
  rewrite dotstar_close_cons.
  destruct (isdot c) eqn:Hc.
  - destruct (dotstar_close s) as [k'|] eqn:Ed.
    + intros E; inversion E; subst.
      destruct (IH k' eq_refl) as (m & rest & -> & Hl & Hm & Hn).
      exists (String c m), rest. simpl. rewrite Hc, Hm, Hl. auto.
    + destruct (startswith (String c s) ">>") eqn:Es; [|discriminate].
      intros E; inversion E; subst.
      destruct (startswith_close _ _ Es) as (-> & r & ->).
      exists "", r. split; [reflexivity|]. split; [reflexivity|]. split; [reflexivity|].
      apply dotstar_close_None. exact Ed.
  - destruct (startswith (String c s) ">>") eqn:Es; [|discriminate].
    destruct (startswith_close _ _ Es) as (-> & _). discriminate.
Qed.

Lemma drop_app m s : drop (String.length m) (m +:+ s) = s.
Proof. induction m as [|c m IH]; [destruct s; reflexivity|]. simpl. exact IH. Qed.

Lemma sub_cond_from_drop k s : sub_cond_from k s = sub_cond (drop k s).
Proof.
  revert k. induction s as [|c s IH]; intros [|k]; try reflexivity.
  simpl. apply IH.
Qed.

Lemma match_cond_Some s n :
  match_cond s = Some n ->
  exists m rest,
    s = "<<" +:+ m +:+ ">>" +:+ rest /\ n = String.length m + 4
    /\ all_chars isdot m = true /\ ~ closes (String ">" rest).
Proof.
  unfold match_cond. intros H.
  destruct s as [|c1 s]; [discriminate|].
  destruct (Ascii.eqb_spec c1 "<") as [->|Hn].
  2:{ exfalso. destruct c1 as [[] [] [] [] [] [] [] []]; try discriminate.
      apply Hn. reflexivity. }
  destruct s as [|c2 s]; [discriminate|].
  destruct (Ascii.eqb_spec c2 "<") as [->|Hn].
  2:{ exfalso. destruct c2 as [[] [] [] [] [] [] [] []]; try discriminate.
      apply Hn. reflexivity. }
  destruct (dotstar_close s) as [k|] eqn:Ed; [|discriminate].
  inversion H; subst.
  destruct (dotstar_close_Some _ _ Ed) as (m & rest & -> & Hl & Hm & Hc).
  exists m, rest. rewrite Hl. auto.
Qed.

Lemma match_cond_None s : match_cond (String "<" (String "<" s)) = None -> ~ closes s.
Proof.
  unfold match_cond. destruct (dotstar_close s) eqn:Ed; [discriminate|].
  intros _. apply dotstar_close_None. exact Ed.
Qed.

Lemma match_cond_head s n :
  match_cond s = Some n -> exists s2, s = String "<" (String "<" s2).
Proof.
  intros H. destruct (match_cond_Some _ _ H) as (m & rest & -> & _). eauto.
Qed.

Lemma sub_cond_cons c s :
  sub_cond (String c s) =
  match match_cond (String c s) with
  | Some (S k) => sub_cond_from k s
  | _ => String c (sub_cond s)
  end.
Proof. reflexivity. Qed.

Lemma length_app (a b : string) :
  String.length (a +:+ b) = String.length a + String.length b.
Proof. induction a as [|c a IH]; [reflexivity|]. rewrite app_cons. simpl. rewrite IH. reflexivity. Qed.

(** The two ways [sub_cond] goes on at a character. *)
Lemma sub_cond_step c s :
  (exists m rest,
      String c s = "<<" +:+ m +:+ ">>" +:+ rest
      /\ all_chars isdot m = true /\ ~ closes (String ">" rest)
      /\ sub_cond (String c s) = sub_cond rest)
  \/ (match_cond (String c s) = None
      /\ sub_cond (String c s) = String c (sub_cond s)).
Proof.
  rewrite sub_cond_cons.
  destruct (match_cond (String c s)) as [n|] eqn:E; [|right; auto].
  left. destruct (match_cond_Some _ _ E) as (m & rest & Hs & -> & Hm & Hc).
  exists m, rest. split; [exact Hs|]. split; [exact Hm|]. split; [exact Hc|].
  replace (String.length m + 4) with (S (String.length (String "<" m +:+ ">>")))
    by (rewrite length_app; simpl; lia).
  rewrite sub_cond_from_drop. f_equal.
  inversion Hs as [[Hc' Hs']].
  change ("<" +:+ m +:+ ">>" +:+ rest) with (String "<" m +:+ (">>" +:+ rest)).
  rewrite <- (app_assoc (String "<" m) ">>" rest).
  apply (drop_app (String "<" m +:+ ">>") rest).
Qed.

Lemma closes_of_match m rest :
  all_chars isdot m = true -> closes ("<<" +:+ m +:+ ">>" +:+ rest).
Proof.
  intros Hm. exists ("<<" +:+ m), rest. split; [reflexivity|].
  simpl. exact Hm.
Qed.

Lemma match_rest_shorter c s m rest :
  String c s = "<<" +:+ m +:+ ">>" +:+ rest ->
  String.length rest < String.length (String c s).
Proof.
  intros ->. change ("<<" +:+ m +:+ ">>" +:+ rest)
    with (String "<" (String "<" (m +:+ ">>" +:+ rest))).
  simpl. rewrite !length_app. simpl. lia.
Qed.

(** The first character of the result is the first character of the
    string, unless the string begins with a match. *)
Lemma sub_cond_head x d o :
  sub_cond x = String d o ->
  (exists x', x = String d x' /\ match_cond x = None /\ o = sub_cond x')
  \/ closes x.
Proof.
  destruct x as [|c s]; [discriminate|].
  destruct (sub_cond_step c s) as [(m & rest & -> & Hm & _)|(Hn & ->)].
  - intros _. right. apply closes_of_match. exact Hm.
  - intros E. inversion E; subst. left. eauto.
Qed.

(** A closing [>>] that the result lets an earlier [<<] reach was already
    within reach in the string: removing matches neither joins two [>]
    nor takes a line feed away. *)
Lemma sub_cond_closes_fuel n s :
  String.length s <= n -> closes (sub_cond s) -> closes s.
Proof.
  revert s. induction n as [|n IH]; intros s Hn.
  { destruct s; [|simpl in Hn; lia]. intros H. exact H. }
  destruct s as [|c s]; [intros H; exact H|].
  destruct (sub_cond_step c s) as [(m & rest & Hs & Hm & Hno & ->)|(Hnone & ->)].
  - intros Hc. exfalso. apply Hno. apply closes_cons; [reflexivity|].
    apply IH; [|exact Hc].
    pose proof (match_rest_shorter _ _ _ _ Hs). simpl in *. lia.
  - intros Hc. apply closes_inv in Hc.
    destruct Hc as [(r & E)|(x & o & E & Hx & Ho)].
    + inversion E as [[Ec Eo]]. subst c.
      destruct (sub_cond_head _ _ _ Eo) as [(x' & -> & _ & _)|Hs].
      * exists "", x'. split; reflexivity.
      * apply closes_cons; [reflexivity|exact Hs].
    + inversion E; subst. apply closes_cons; [exact Hx|].
      apply IH; [simpl in Hn; lia|exact Ho].
Qed.

Lemma sub_cond_closes s : closes (sub_cond s) -> closes s.
Proof. apply (sub_cond_closes_fuel (String.length s)). lia. Qed.

Lemma has_conditional_inv c o :
  has_conditional (String c o) ->
  (c = "<"%char /\ exists s2, o = String "<" s2 /\ closes s2)
  \/ has_conditional o.
Proof.
  intros ([|x a] & b & d & E & Hb).
  - left. inversion E; subst. split; [reflexivity|].
    exists (b +:+ ">>" +:+ d). split; [reflexivity|]. exists b, d. auto.
  - right. inversion E; subst. exists a, b, d. auto.
Qed.

Lemma not_has_conditional_nil : ~ has_conditional "".
Proof. intros ([|x a] & b & d & E & _); discriminate. Qed.

Lemma sub_cond_clean_fuel n s :
  String.length s <= n -> ~ has_conditional (sub_cond s).
Proof.
  revert s. induction n as [|n IH]; intros s Hn.
  { destruct s; [|simpl in Hn; lia]. apply not_has_conditional_nil. }
  destruct s as [|c s]; [apply not_has_conditional_nil|].
  destruct (sub_cond_step c s) as [(m & rest & Hs & Hm & Hno & ->)|(Hnone & ->)].
  - apply IH. pose proof (match_rest_shorter _ _ _ _ Hs). simpl in *. lia.
  - intros H. apply has_conditional_inv in H.
    destruct H as [(-> & s2 & Eo & Hc)|H]; [|revert H; apply IH; simpl in Hn; lia].
    assert (closes s) as Hs.
    { apply sub_cond_closes. rewrite Eo. apply closes_cons; [reflexivity|exact Hc]. }
    destruct (sub_cond_head _ _ _ Eo) as [(x' & -> & _ & _)|_].
    + apply closes_inv in Hs. destruct Hs as [(r & E)|(x & s' & E & _ & Hs')];
        [discriminate|].
      inversion E; subst. revert Hs'. apply match_cond_None. exact Hnone.
    + destruct s as [|d s]; [exact (not_closes_nil Hs)|].
      destruct (sub_cond_step d s) as [(m & rest & E & Hm & _)|(_ & E)].
      * inversion E; subst. revert Hnone.
        unfold match_cond.
        destruct (dotstar_close ("<" +:+ m +:+ ">>" +:+ rest)) eqn:Ed; [discriminate|].
        intros _. apply dotstar_close_None in Ed. apply Ed.
        exists (String "<" m), rest. split; [reflexivity|]. exact Hm.
      * rewrite E in Eo. inversion Eo; subst.
        apply closes_inv in Hs. destruct Hs as [(r & E')|(x & s' & E' & _ & Hs')];
          [discriminate|].
        inversion E'; subst. revert Hs'. apply match_cond_None. exact Hnone.
Qed.

(** After [re.sub] the conditional pattern matches nowhere. *)
Lemma sub_cond_clean s : ~ has_conditional (sub_cond s).
Proof. apply (sub_cond_clean_fuel (String.length s)). lia. Qed.

(** Without a [<] there is nothing to remove. *)
Lemma sub_cond_plain s :
  all_chars (fun c => negb (Ascii.eqb c "<")) s = true -> sub_cond s = s.
Proof.
  induction s as [|c s IH]; [reflexivity|].
  simpl all_chars. intros H. apply andb_prop in H. destruct H as [Hc Hs].
  destruct (sub_cond_step c s) as [(m & rest & E & _)|(_ & ->)].
  - inversion E; subst. discriminate.
  - rewrite (IH Hs). reflexivity.
Qed.

(** ** What stripping and dropping leave *)

Lemma rstrip_prefix s :
  exists r, s = rstrip s +:+ r /\ all_chars isspace r = true.
Proof.
  induction s as [|c s (r & IH & Hr)]; [exists ""; split; reflexivity|].
  simpl. destruct (rstrip s) as [|d t] eqn:E.
  - destruct (isspace c) eqn:Ec.
    + exists (String c s). split; [reflexivity|]. simpl.
      rewrite Ec, IH, app_nil_l. exact Hr.
    + exists r. split; [rewrite IH at 1; reflexivity|exact Hr].
  - exists r. split; [rewrite IH at 1; reflexivity|exact Hr].
Qed.

(** A stripped string stands in the string it was stripped from. *)
Lemma strip_occurs s : occurs (strip s) s.
Proof.
  unfold strip. destruct (rstrip_prefix (lstrip s)) as (r & E & _).
  exists (takewhile isspace s), r. rewrite <- E. unfold lstrip.
  symmetry. apply takewhile_dropwhile.
Qed.

Lemma occurs_trans x y z : occurs x y -> occurs y z -> occurs x z.
Proof.
  intros (p1 & q1 & ->) (p2 & q2 & ->). exists (p2 +:+ p1), (q1 +:+ q2).
  rewrite !app_assoc. reflexivity.
Qed.

Lemma has_conditional_occurs x y :
  has_conditional x -> occurs x y -> has_conditional y.
Proof.
  intros (a & b & c & -> & Hb) (p & q & ->).
  exists (p +:+ a), b, (c +:+ q). split; [|exact Hb].
  rewrite !app_assoc. reflexivity.
Qed.

Lemma takewhile_all f s : all_chars f (takewhile f s) = true.
Proof.
  induction s as [|c s IH]; [reflexivity|]. simpl.
  destruct (f c) eqn:E; [simpl; rewrite E, IH|]; reflexivity.
Qed.

Lemma all_chars_app f a b :
  all_chars f (a +:+ b) = all_chars f a && all_chars f b.
Proof.
  induction a as [|c a IH]; [reflexivity|].
  rewrite app_cons. simpl. rewrite IH, andb_assoc. reflexivity.
Qed.

Lemma dropwhile_head f s :
  match dropwhile f s with
  | EmptyString => True
  | String c _ => f c = false
  end.
Proof.
  induction s as [|c s IH]; [exact I|]. simpl.
  destruct (f c) eqn:E; [exact IH|exact E].
Qed.

Lemma startswith_nonempty s p :
  startswith s p = true -> p <> "" -> s <> "".
Proof. intros H Hp ->. destruct p; [contradiction|discriminate]. Qed.

(** ** C6: choice lines *)

Lemma speaker_and_text_choice t :
  startswith t "->" = true -> speaker_and_text t = ("", choice_text t).
Proof.
  intros H. unfold speaker_and_text. rewrite H.
  destruct (match_speaker (choice_text t)) as [[g1 g2]|]; reflexivity.
Qed.

(** C6: the line [-> Leave <<if $flag>> #line:002], read in a body, gives
    exactly the row with identifier [line:002], no speaker, the text
    [Leave] and no tags.  In general, when the text left after the tags
    begins with [->], a row is written whose text is obtained so: all the
    leading [-] and [>] are dropped, the result is stripped, the
    conditional pattern is substituted away and the result is stripped
    again; the conditional pattern then matches nowhere in the text, a
    remainder without any [<] is kept as it is, and the speaker is
    empty. *)
Theorem C6_choice_line :
  (forall title n,
     loop_body (mkState title true n) "-> Leave <<if $flag>> #line:002" =
     (mkState title true n, Some (mkRow "line:002" title "" "Leave" [])))
  /\ (forall st raw,
        in_body st = true ->
        is_content (strip raw) = true ->
        startswith (strip (sub_tags (strip raw))) "->" = true ->
        exists r arrows rest,
          snd (loop_body st raw) = Some r
          /\ strip (sub_tags (strip raw)) = arrows +:+ rest
          /\ all_chars (char_in "->") arrows = true
          /\ startswith rest "-" = false /\ startswith rest ">" = false
          /\ text r = strip (sub_cond (strip rest))
          /\ ~ has_conditional (text r)
          /\ (all_chars (fun c => negb (Ascii.eqb c "<")) rest = true ->
              text r = strip rest)
          /\ character_name r = "").
Proof.
  split; [intros title n; vm_compute; reflexivity|].
  intros st raw Hb Hc Ha.
  set (t := strip (sub_tags (strip raw))) in *.
  exists (row_of st (strip raw)), (takewhile (char_in "->") t), (lstrip_chars "->" t).
  split.
  { rewrite (loop_body_content _ _ Hb Hc), body_line_eq. simpl. fold t.
    destruct (String.eqb_spec t ""); [|reflexivity].
    exfalso. revert e. apply (startswith_nonempty _ _ Ha). discriminate. }
  split; [symmetry; apply takewhile_dropwhile|].
  split; [apply takewhile_all|].
  assert (startswith (lstrip_chars "->" t) "-" = false
          /\ startswith (lstrip_chars "->" t) ">" = false) as [H1 H2].
  { pose proof (dropwhile_head (char_in "->") t) as H. unfold lstrip_chars.
    destruct (dropwhile (char_in "->") t) as [|c s]; [split; reflexivity|].
    simpl in H. apply orb_false_iff in H. destruct H as [Hd H].
    apply orb_false_iff in H. destruct H as [Hg _].
    cbv [startswith]. rewrite Ascii.eqb_sym, Hd, Ascii.eqb_sym, Hg. split; reflexivity. }
  split; [exact H1|]. split; [exact H2|].
  unfold row_of. fold t. simpl. rewrite (speaker_and_text_choice _ Ha). simpl.
  split; [reflexivity|]. split.
  { intros H. apply (sub_cond_clean (strip (lstrip_chars "->" t))).
    eapply has_conditional_occurs; [exact H|apply strip_occurs]. }
  split; [|reflexivity].
  intros Hp. unfold choice_text. rewrite sub_cond_plain, strip_idem; [reflexivity|].
  destruct (strip_occurs (lstrip_chars "->" t)) as (p & q & E).
  rewrite E, !all_chars_app in Hp.
  apply andb_prop in Hp. destruct Hp as [_ Hp].
  apply andb_prop in Hp. destruct Hp as [Hp _]. exact Hp.
Qed.

Lemma C6_choice_line_witness :
  let st := mkState "Shop" true 4 in
  let raw := "  ->> - Buy <<if $gold > 3>> it <<endif>> now #shop " in
  in_body st = true
  /\ is_content (strip raw) = true
  /\ startswith (strip (sub_tags (strip raw))) "->" = true
  /\ snd (loop_body st raw) = Some (mkRow "auto_id_4" "Shop" "" "- Buy  now" ["shop"])
  /\ exists r arrows rest,
       snd (loop_body st raw) = Some r
       /\ strip (sub_tags (strip raw)) = arrows +:+ rest
       /\ all_chars (char_in "->") arrows = true
       /\ startswith rest "-" = false /\ startswith rest ">" = false
       /\ text r = strip (sub_cond (strip rest))
       /\ ~ has_conditional (text r)
       /\ (all_chars (fun c => negb (Ascii.eqb c "<")) rest = true ->
           text r = strip rest)
       /\ character_name r = "".
Proof.
  intros st raw.
  split; [reflexivity|]. split; [vm_compute; reflexivity|].
  split; [vm_compute; reflexivity|]. split; [vm_compute; reflexivity|].
  apply (proj2 C6_choice_line st raw); vm_compute; reflexivity.
Defined.

(** ** C7: a tag written back is read back *)

Lemma dropwhile_app f a b :
  dropwhile f (a +:+ b) =
  if all_chars f a then dropwhile f b else dropwhile f a +:+ b.
Proof.
  induction a as [|c a IH]; [reflexivity|].
  rewrite app_cons. simpl. destruct (f c); [exact IH|reflexivity].
Qed.

Lemma takewhile_nonspace_app a sp b :
  isspace sp = true ->
  takewhile nonspace (a +:+ String sp b) = takewhile nonspace a.
Proof.
  intros Hsp. induction a as [|c a IH].
  - rewrite app_nil_l. simpl. unfold nonspace. rewrite Hsp. reflexivity.
  - rewrite app_cons. simpl. rewrite IH. reflexivity.
Qed.

Lemma tag_follows_app a sp b :
  isspace sp = true -> tag_follows (a +:+ String sp b) = tag_follows a.
Proof.
  intros Hsp. destruct a as [|c a]; [|reflexivity].
  rewrite app_nil_l. simpl. unfold nonspace. rewrite Hsp. reflexivity.
Qed.

(** A whitespace character cuts the scan in two. *)
Lemma findall_tags_from_app inside a sp b :
  isspace sp = true ->
  findall_tags_from inside (a +:+ String sp b) =
  findall_tags_from inside a ++ findall_tags_from false b.
Proof.
  intros Hsp. revert inside. induction a as [|c a IH]; intros inside.
  - rewrite app_nil_l. simpl. rewrite Hsp. reflexivity.
  - rewrite app_cons. simpl.
    rewrite !IH, tag_follows_app, takewhile_nonspace_app by exact Hsp.
    destruct (isspace c); [reflexivity|].
    destruct inside; [reflexivity|].
    destruct (Ascii.eqb c "#" && tag_follows a); reflexivity.
Qed.


Lemma findall_tags_from_space inside s :
  all_chars isspace s = true -> findall_tags_from inside s = [].
Proof.
  revert inside. induction s as [|c s IH]; intros inside; [reflexivity|].
  simpl. intros H. apply andb_prop in H. destruct H as [-> Hs]. apply IH, Hs.
Qed.

Lemma takewhile_all_id f t : all_chars f t = true -> takewhile f t = t.
Proof.
  induction t as [|c t IH]; [reflexivity|]. simpl. intros H.
  apply andb_prop in H. destruct H as [-> Ht]. rewrite (IH Ht). reflexivity.
Qed.


(** Stripping a line does not change its tags. *)
Lemma findall_tags_strip s : findall_tags (strip s) = findall_tags s.
Proof.
  unfold strip, findall_tags.
  destruct (rstrip_prefix (lstrip s)) as (r & E & Hr).
  transitivity (findall_tags_from false (lstrip s)).
  - rewrite E at 2. destruct r as [|sp r]; [rewrite app_nil_r; reflexivity|].
    simpl in Hr. apply andb_prop in Hr. destruct Hr as [Hsp Hr].
    rewrite (findall_tags_from_app _ _ _ _ Hsp), (findall_tags_from_space _ _ Hr).
    rewrite List.app_nil_r. reflexivity.
  - clear. unfold lstrip. induction s as [|c s IH]; [reflexivity|]. simpl.
    destruct (isspace c) eqn:Ec; [exact IH|]. simpl. rewrite Ec. reflexivity.
Qed.





Lemma filter_none (A : Type) (f : A -> bool) (l : list A) :
  existsb f l = false -> List.filter f l = [].
Proof.
  induction l as [|x l IH]; [reflexivity|]. simpl. intros H.
  apply orb_false_iff in H. destruct H as [-> H]. apply IH, H.
Qed.






(** ** C8: a missing input file *)

Section MissingInput.

Variable writerow : list string -> string.
Variable splitext : string -> string * string.
Variable traceback : exn -> string.

(** C8: when an input path is given on the command line and no file
    stands at that path, the program prints one message that names the
    path, ends with code 1, and leaves every file as it was: the output
    file is neither created nor changed.  ([parse_yarn_to_csv] itself does
    so for any output path; a file is written only once the input has been
    read.) *)
Theorem C8_missing_input_leaves_no_output
    (input_path : string) (output_file : option string) (w : world) :
  input_path <> "" ->
  files w !! input_path = None ->
  main writerow splitext traceback (Some input_path) output_file w =
    (print ("Error: Input file not found at '" +:+ input_path +:+ "'") w, 1)
  /\ (forall output_path,
        parse_yarn_to_csv writerow input_path output_path w =
        (print ("Error: Input file not found at '" +:+ input_path +:+ "'") w,
         Exited 1))
  /\ files (fst (main writerow splitext traceback (Some input_path) output_file w)) = files w
  /\ stdout (fst (main writerow splitext traceback (Some input_path) output_file w)) =
       stdout w ++ ["Error: Input file not found at '" +:+ input_path +:+ "'"]
  /\ occurs input_path ("Error: Input file not found at '" +:+ input_path +:+ "'")
  /\ snd (main writerow splitext traceback (Some input_path) output_file w) <> 0.
Proof.
  intros Hne Hmiss.
  assert (forall output_path,
             parse_yarn_to_csv writerow input_path output_path w =
             (print ("Error: Input file not found at '" +:+ input_path +:+ "'") w,
              Exited 1)) as Hparse.
  { intros output_path. unfold parse_yarn_to_csv. rewrite Hmiss. reflexivity. }
  assert (main writerow splitext traceback (Some input_path) output_file w =
          (print ("Error: Input file not found at '" +:+ input_path +:+ "'") w, 1))
    as Hmain.
  { unfold main, given.
    destruct (String.eqb_spec input_path ""); [contradiction|].
    rewrite Hparse. reflexivity. }
  rewrite Hmain. simpl.
  repeat split; auto.
  exists "Error: Input file not found at '", "'". reflexivity.
Qed.

(** When the input file is there and the output path can be opened, the
    output file is written, with the rows of the lines read, and the run
    ends with code 0. *)
Lemma main_writes_output input_path output_path content w :
  input_path <> "" -> output_path <> "" ->
  files w !! input_path = Some (Text content) ->
  writable w output_path = true ->
  files (fst (main writerow splitext traceback (Some input_path) (Some output_path) w))
    !! output_path = Some (Text (csv_text writerow (extract (readlines content))))
  /\ snd (main writerow splitext traceback (Some input_path) (Some output_path) w) = 0.
Proof.
  intros Hi Ho Hin Hw. unfold main, given, parse_yarn_to_csv.
  destruct (String.eqb_spec input_path ""); [contradiction|].
  destruct (String.eqb_spec output_path ""); [contradiction|].
  rewrite Hin, Hw. simpl. split; [apply lookup_insert_eq|reflexivity].
Qed.

End MissingInput.

Lemma C8_missing_input_leaves_no_output_witness :
  let w := mkWorld {[ "other.yarn" := Text "title: A" ]} (fun _ => true) (inr ["other.yarn"]) [] [] in
  "story.yarn" <> ""
  /\ files w !! "story.yarn" = None
  /\ main (join ",") (fun p => (p, "")) (fun _ => "Traceback") (Some "story.yarn") None w =
       (print ("Error: Input file not found at '" +:+ "story.yarn" +:+ "'") w, 1).
Proof.
  intros w.
  split; [discriminate|]. split; [reflexivity|].
  apply (C8_missing_input_leaves_no_output (join ",") (fun p => (p, "")) (fun _ => "Traceback")
           "story.yarn" None w); [discriminate|reflexivity].
Defined.

(** ** C10: conditionals on lines that are not choices *)

Lemma occurs_length x s : occurs x s -> String.length x <= String.length s.
Proof. intros (p & q & ->). rewrite !length_app. lia. Qed.

(** A conditional before the colon of a speaker line goes to the speaker
    field, not to the text. *)
Lemma C10_conditional_before_colon :
  loop_body (mkState "Start" true 0) "Bob <<wave>>: Hi" =
    (mkState "Start" true 1, Some (mkRow "auto_id_0" "Start" "Bob <<wave>>" "Hi" []))
  /\ startswith (strip (sub_tags (strip "Bob <<wave>>: Hi"))) "->" = false
  /\ startswith (strip (sub_tags (strip "Bob <<wave>>: Hi"))) "<<" = false
  /\ occurs "<<wave>>" "Bob <<wave>>: Hi"
  /\ ~ occurs "<<wave>>" "Hi".
Proof.
  split; [vm_compute; reflexivity|]. split; [vm_compute; reflexivity|].
  split; [vm_compute; reflexivity|]. split.
  - exists "Bob ", ": Hi". reflexivity.
  - intros H. apply occurs_length in H. simpl in H. lia.
Qed.

Lemma takewhile_app_stop f a c b :
  all_chars f a = true -> f c = false ->
  takewhile f (a +:+ String c b) = a /\ dropwhile f (a +:+ String c b) = String c b.
Proof.
  intros Ha Hc. induction a as [|x a IH].
  - rewrite app_nil_l. simpl. rewrite Hc. auto.
  - simpl in Ha. apply andb_prop in Ha. destruct Ha as [Hx Ha].
    rewrite app_cons. simpl. rewrite Hx. destruct (IH Ha) as [-> ->]. auto.
Qed.

Lemma dropwhile_idem f s : dropwhile f (dropwhile f s) = dropwhile f s.
Proof.
  pose proof (dropwhile_head f s) as H.
  destruct (dropwhile f s) as [|c t]; [reflexivity|]. simpl. rewrite H. reflexivity.
Qed.

Lemma dropwhile_all g f s :
  all_chars g s = true -> all_chars g (dropwhile f s) = true.
Proof.
  induction s as [|c s IH]; [reflexivity|]. simpl. intros H.
  destruct (f c); [|exact H].
  apply andb_prop in H. destruct H as [_ H]. apply IH, H.
Qed.

(** The speaker pattern on a text with a name, a colon and a remainder
    without line feed. *)
Lemma match_speaker_colon name rest :
  name <> "" -> all_chars notcolon name = true -> all_chars isdot rest = true ->
  match_speaker (name +:+ ":" +:+ rest) = Some (name, lstrip rest).
Proof.
  intros Hne Hn Hr. unfold match_speaker.
  change (":" +:+ rest) with (String ":" rest).
  destruct (takewhile_app_stop notcolon name ":" rest Hn eq_refl) as [-> ->].
  destruct name as [|c name]; [contradiction|].
  rewrite takewhile_all_id; [reflexivity|]. apply dropwhile_all, Hr.
Qed.

Lemma rstrip_app_keep a c q :
  isspace c = false -> exists q', rstrip (a +:+ String c q) = a +:+ String c q'.
Proof.
  intros Hc. induction a as [|d a (q' & IH)].
  - rewrite app_nil_l. apply rstrip_head, Hc.
  - exists q'. rewrite app_cons. simpl. rewrite IH.
    destruct a; reflexivity.
Qed.

(** Stripping keeps whatever stands between two characters that are not
    whitespace. *)
Lemma strip_keeps p h m l q :
  isspace h = false -> isspace l = false ->
  exists p' q',
    strip (p +:+ String h (m +:+ String l q)) = p' +:+ String h (m +:+ String l q').
Proof.
  intros Hh Hl. unfold strip, lstrip. rewrite dropwhile_app.
  assert (forall p0, exists p' q',
             rstrip (p0 +:+ String h (m +:+ String l q))
             = p' +:+ String h (m +:+ String l q')) as Hr.
  { intros p0. destruct (rstrip_app_keep (p0 +:+ String h m) l q Hl) as (q' & E).
    exists p0, q'. rewrite !app_assoc in E. exact E. }
  destruct (all_chars isspace p).
  - simpl. rewrite Hh. apply (Hr "").
  - apply Hr.
Qed.

Lemma strip_keeps_conditional b s :
  occurs ("<<" +:+ b +:+ ">>") s -> occurs ("<<" +:+ b +:+ ">>") (strip s).
Proof.
  intros (p & q & ->).
  destruct (strip_keeps p "<" ("<" +:+ b +:+ ">") ">" q eq_refl eq_refl) as (p' & q' & E).
  exists p', q'.
  replace (("<<" +:+ b +:+ ">>") +:+ q)
    with (String "<" (("<" +:+ b +:+ ">") +:+ String ">" q)).
  2:{ change ("<<" +:+ b +:+ ">>") with (String "<" ("<" +:+ b +:+ ">>")).
      rewrite app_cons. f_equal. change ("<" +:+ b +:+ ">>") with (String "<" (b +:+ ">>")).
      change ("<" +:+ b +:+ ">") with (String "<" (b +:+ ">")).
      rewrite !app_cons. f_equal. rewrite !app_assoc. reflexivity. }
  rewrite E.
  change ("<<" +:+ b +:+ ">>") with (String "<" (String "<" (b +:+ ">>"))).
  change ("<" +:+ b +:+ ">") with (String "<" (b +:+ ">")).
  rewrite !app_cons. do 3 f_equal. rewrite !app_assoc. reflexivity.
Qed.

Lemma strip_lstrip s : strip (lstrip s) = strip s.
Proof. unfold strip, lstrip. rewrite dropwhile_idem. reflexivity. Qed.

(** C10 (amended): no conditional is removed from a body line that is not
    a choice.  For a line read in a body whose text, once the tags are
    removed, is not empty and does not begin with [->], a row is written
    and its speaker and text come from that text by the speaker pattern
    alone: if the pattern does not match, the text of the row is that text
    unchanged, with every [<<] ... [>>] in it; if the text is a name, a
    colon and a remainder without line feed, the speaker is the stripped
    name and the text of the row is the stripped remainder, in which every
    [<<] ... [>>] of the remainder still stands.  (What stands before the
    first colon is in the speaker field.)  A line that begins with [<<] is
    skipped whole, with no change of state. *)
Theorem C10_conditionals_kept_outside_choices :
  (forall st raw,
     in_body st = true ->
     is_content (strip raw) = true ->
     strip (sub_tags (strip raw)) <> "" ->
     startswith (strip (sub_tags (strip raw))) "->" = false ->
     exists r,
       snd (loop_body st raw) = Some r
       /\ (match_speaker (strip (sub_tags (strip raw))) = None ->
           character_name r = "" /\ text r = strip (sub_tags (strip raw)))
       /\ (forall name rest,
             strip (sub_tags (strip raw)) = name +:+ ":" +:+ rest ->
             name <> "" -> all_chars notcolon name = true ->
             all_chars isdot rest = true ->
             character_name r = strip name
             /\ text r = strip rest
             /\ forall b, occurs ("<<" +:+ b +:+ ">>") rest ->
                          occurs ("<<" +:+ b +:+ ">>") (text r)))
  /\ (forall st raw,
        startswith (strip raw) "<<" = true -> loop_body st raw = (st, None)).
Proof.
  split.
  - intros st raw Hb Hc Hne Ha.
    exists (row_of st (strip raw)). split.
    { rewrite (loop_body_content _ _ Hb Hc), body_line_eq. simpl.
      destruct (String.eqb_spec (strip (sub_tags (strip raw))) "");
        [contradiction|reflexivity]. }
    unfold row_of. simpl. unfold speaker_and_text. rewrite Ha. split.
    + intros ->. auto.
    + intros name rest E Hn Hcol Hdot.
      rewrite E, (match_speaker_colon _ _ Hn Hcol Hdot). simpl.
      rewrite strip_lstrip. split; [reflexivity|]. split; [reflexivity|].
      intros b. apply strip_keeps_conditional.
  - intros st raw H. unfold loop_body.
    destruct (String.eqb_spec (strip raw) "") as [E|_];
      [rewrite E in H; discriminate|].
    destruct (startswith (strip raw) "title:") eqn:Et.
    { destruct (startswith_title _ Et) as (rest & E & _). rewrite E in H. discriminate. }
    rewrite strip_idem.
    destruct (String.eqb_spec (strip raw) "---") as [E|_];
      [rewrite E in H; discriminate|].
    destruct (String.eqb_spec (strip raw) "===") as [E|_];
      [rewrite E in H; discriminate|].
    rewrite H, orb_true_r. destruct (in_body st); reflexivity.
Qed.

Lemma C10_conditionals_kept_outside_choices_witness :
  let st := mkState "Start" true 0 in
  let raw := "Bob: Take it <<if $gold > 3>> or leave #mood" in
  in_body st = true
  /\ is_content (strip raw) = true
  /\ strip (sub_tags (strip raw)) <> ""
  /\ startswith (strip (sub_tags (strip raw))) "->" = false
  /\ snd (loop_body st raw)
     = Some (mkRow "auto_id_0" "Start" "Bob" "Take it <<if $gold > 3>> or leave" ["mood"])
  /\ exists r,
       snd (loop_body st raw) = Some r
       /\ (match_speaker (strip (sub_tags (strip raw))) = None ->
           character_name r = "" /\ text r = strip (sub_tags (strip raw)))
       /\ (forall name rest,
             strip (sub_tags (strip raw)) = name +:+ ":" +:+ rest ->
             name <> "" -> all_chars notcolon name = true ->
             all_chars isdot rest = true ->
             character_name r = strip name
             /\ text r = strip rest
             /\ forall b, occurs ("<<" +:+ b +:+ ">>") rest ->
                          occurs ("<<" +:+ b +:+ ">>") (text r)).
Proof.
  intros st raw.
  split; [reflexivity|]. split; [vm_compute; reflexivity|].
  split; [vm_compute; discriminate|]. split; [vm_compute; reflexivity|].
  split; [vm_compute; reflexivity|].
  apply (proj1 C10_conditionals_kept_outside_choices st raw);
    [reflexivity|vm_compute; reflexivity|vm_compute; discriminate
    |vm_compute; reflexivity].
Defined.

(** ** Lines as they come from a file *)

Lemma all_chars_occurs f x s :
  all_chars f s = true -> occurs x s -> all_chars f x = true.
Proof.
  intros H (p & q & ->). rewrite !all_chars_app in H.
  apply andb_prop in H. destruct H as [_ H].
  apply andb_prop in H. destruct H as [H _]. exact H.
Qed.

Lemma rstrip_space r : all_chars isspace r = true -> rstrip r = "".
Proof.
  induction r as [|c r IH]; [reflexivity|]. simpl. intros H.
  apply andb_prop in H. destruct H as [-> H]. rewrite (IH H). reflexivity.
Qed.

Lemma rstrip_app_space a r :
  all_chars isspace r = true -> rstrip (a +:+ r) = rstrip a.
Proof.
  intros Hr. induction a as [|c a IH].
  - rewrite app_nil_l. apply rstrip_space, Hr.
  - rewrite app_cons. simpl. rewrite IH. reflexivity.
Qed.

Lemma readlines_shape_fuel n s :
  String.length s <= n -> Forall line_shape (readlines s).
Proof.
  revert s. induction n as [|n IH]; intros s Hn.
  { destruct s; [constructor|simpl in Hn; lia]. }
  destruct s as [|c s]; [constructor|]. simpl in Hn.
  assert (line_shape (String "010" "")) as Hlf.
  { exists "". split; [reflexivity|]. right. reflexivity. }
  simpl. destruct (Ascii.eqb c "010") eqn:Elf.
  { constructor; [exact Hlf|]. apply IH. lia. }
  destruct (Ascii.eqb c "013").
  { destruct s as [|d s]; [constructor; [exact Hlf|constructor]|].
    assert (Forall line_shape (readlines (String d s))) as Hd by (apply IH; lia).
    assert (Forall line_shape (readlines s)) as Hs by (apply IH; simpl in Hn; lia).
    destruct d as [[] [] [] [] [] [] [] []]; constructor; assumption. }
  assert (Forall line_shape (readlines s)) as Hs by (apply IH; lia).
  assert (isdot c = true) as Hc by (unfold isdot; rewrite Elf; reflexivity).
  destruct (readlines s) as [|l ls].
  - constructor; [|constructor]. exists (String c ""). split; [|left; reflexivity].
    simpl. rewrite Hc. reflexivity.
  - inversion Hs as [|? ? (body & Hb & Hl) Hls]; subst. constructor; [|exact Hls].
    exists (String c body). split; [simpl; rewrite Hc, Hb; reflexivity|].
    destruct Hl as [->| ->]; [left|right]; reflexivity.
Qed.

Lemma strip_line_shape l : line_shape l -> all_chars isdot (strip l) = true.
Proof.
  intros (body & Hb & [->| ->]).
  - exact (all_chars_occurs _ _ _ Hb (strip_occurs body)).
  - unfold strip, lstrip. rewrite dropwhile_app.
    destruct (all_chars isspace body); [reflexivity|].
    rewrite rstrip_app_space by reflexivity.
    exact (all_chars_occurs _ _ _ Hb (strip_occurs body)).
Qed.

Lemma sub_tags_from_all f inside s :
  all_chars f s = true -> all_chars f (sub_tags_from inside s) = true.
Proof.
  revert inside. induction s as [|c s IH]; intros inside; [reflexivity|].
  simpl. intros H. apply andb_prop in H. destruct H as [Hc Hs].
  destruct (isspace c); [simpl; rewrite Hc; apply IH, Hs|].
  destruct inside; [apply IH, Hs|].
  destruct (Ascii.eqb c "#" && tag_follows s); [apply IH, Hs|].
  simpl. rewrite Hc. apply IH, Hs.
Qed.

(** The lines [readlines] gives have no line feed left once stripped, and
    so neither has the text the loop works on: the greedy runs of [.] in
    the patterns never stop short on the lines of a file. *)
Lemma file_text_no_line_feed content raw :
  In raw (readlines content) ->
  all_chars isdot (strip (sub_tags (strip raw))) = true.
Proof.
  intros Hin.
  pose proof (readlines_shape_fuel _ content (le_n _)) as H.
  rewrite Forall_forall in H. specialize (H raw).
  assert (line_shape raw) as Hl.
  { apply H. apply list_elem_of_In. exact Hin. }
  apply (all_chars_occurs _ _ _ (sub_tags_from_all isdot false _ (strip_line_shape _ Hl))).
  apply strip_occurs.
Qed.

(** ** C1, as it holds *)

Lemma dropwhile_nil f s : dropwhile f s = "" <-> all_chars f s = true.
Proof.
  induction s as [|c s IH]; [split; reflexivity|]. simpl.
  destruct (f c); [exact IH|]. split; discriminate.
Qed.

Lemma strip_nil s : strip s = "" <-> all_chars isspace s = true.
Proof.
  split.
  - intros H. apply dropwhile_nil. fold (lstrip s).
    destruct (lstrip_head s) as [E|(c & s' & E & Hc)]; [exact E|].
    unfold strip in H. rewrite E in H.
    destruct (rstrip_head c s' Hc) as (r & Er). rewrite Er in H. discriminate.
  - intros H. unfold strip, lstrip. apply dropwhile_nil in H. rewrite H. reflexivity.
Qed.

(** A string that is not changed by stripping on the right does not end
    with whitespace. *)
Lemma rstrip_fixed_tail a rest :
  rstrip (a +:+ rest) = a +:+ rest -> all_chars isspace rest = true -> rest = "".
Proof.
  intros H Hr. rewrite (rstrip_app_space _ _ Hr) in H.
  destruct (rstrip_prefix a) as (r & E & _).
  assert (String.length (a +:+ rest) <= String.length a) as Hl.
  { rewrite <- H. rewrite E at 2. rewrite length_app. lia. }
  rewrite length_app in Hl. destruct rest; [reflexivity|simpl in Hl; lia].
Qed.

Lemma speaker_and_text_empty t :
  t <> "" -> rstrip t = t ->
  (snd (speaker_and_text t) = "" <-> empties_text t).
Proof.
  intros Hne Hfix. unfold speaker_and_text, empties_text.
  destruct (startswith t "->") eqn:Ec.
  - assert (snd (match match_speaker (choice_text t) with
                 | Some (g1, g2) => ("", choice_text t)
                 | None => ("", choice_text t)
                 end) = choice_text t) as ->
      by (destruct (match_speaker (choice_text t)) as [[? ?]|]; reflexivity).
    unfold choice_text. rewrite strip_nil. split.
    + intros H. left. auto.
    + intros [[_ H]|[H _]]; [exact H|discriminate].
  - split.
    + intros H. right. split; [reflexivity|].
      unfold match_speaker in H.
      pose proof (takewhile_dropwhile notcolon t) as Et.
      pose proof (takewhile_all notcolon t) as Ha.
      pose proof (dropwhile_head notcolon t) as Hd.
      destruct (takewhile notcolon t) as [|a0 a] eqn:Ea; [simpl in H; contradiction|].
      destruct (dropwhile notcolon t) as [|d rest] eqn:Ed; [simpl in H; contradiction|].
      simpl in H. unfold notcolon in Hd. apply negb_false_iff in Hd.
      apply Ascii.eqb_eq in Hd. subst d.
      apply strip_nil in H.
      assert (all_chars isspace rest = true) as Hrest.
      { apply dropwhile_nil.
        pose proof (dropwhile_head isspace rest) as Hh.
        destruct (dropwhile isspace rest) as [|c' s']; [reflexivity|].
        exfalso. simpl in H.
        assert (isdot c' = true) as Hdot.
        { unfold isdot. destruct (Ascii.eqb_spec c' "010") as [->|]; [|reflexivity].
          vm_compute in Hh. discriminate. }
        rewrite Hdot in H. simpl in H. rewrite Hh in H. discriminate. }
      assert (rest = "") as ->.
      { apply (rstrip_fixed_tail (String a0 a +:+ ":") rest); [|exact Hrest].
        rewrite app_assoc. change (":" +:+ rest) with (String ":" rest).
        rewrite Et. exact Hfix. }
      exists (String a0 a). split; [symmetry; exact Et|]. split; [discriminate|exact Ha].
    + intros [[H _]|(_ & name & E & Hn & Hcol)]; [discriminate|].
      assert (match_speaker t = Some (name, "")) as ->.
      { rewrite E. exact (match_speaker_colon name "" Hn Hcol eq_refl). }
      reflexivity.
Qed.

(** C1 (amended): every row written comes from a line whose text, once the
    tags are removed and the result is stripped, is not empty; and the text
    of the row is not empty either, except in exactly two cases: the line
    is not a choice and that text is a name followed by a colon and nothing
    else (as [Alice:]), or the line is a choice and nothing but whitespace
    is left once its leading [-] and [>] are dropped and the conditional
    is removed (as [->] alone or [-> <<if $x>>]). *)
Theorem C1_text_empty_only_when (lines : list string) (r : Row) :
  In r (extract lines) ->
  exists before raw after,
    lines = before ++ raw :: after
    /\ snd (loop_body (fst (run initial before)) raw) = Some r
    /\ strip (sub_tags (strip raw)) <> ""
    /\ (text r = "" <-> empties_text (strip (sub_tags (strip raw))))
    /\ (startswith (strip (sub_tags (strip raw))) "->" = false ->
        (forall name, strip (sub_tags (strip raw)) <> name +:+ ":") ->
        text r <> "")
    /\ (startswith (strip (sub_tags (strip raw))) "->" = true ->
        all_chars isspace (sub_cond (strip (lstrip_chars "->" (strip (sub_tags (strip raw))))))
        = false ->
        text r <> "").
Proof.
  intros Hin. apply run_row in Hin.
  destruct Hin as (before & raw & after & -> & Hr).
  exists before, raw, after. split; [reflexivity|]. split; [exact Hr|].
  apply loop_body_row_inv in Hr. destruct Hr as (_ & _ & Ht & ->).
  split; [exact Ht|].
  assert (text (row_of (fst (run initial before)) (strip raw)) = ""
          <-> empties_text (strip (sub_tags (strip raw)))) as Hiff.
  { unfold row_of. simpl. apply speaker_and_text_empty; [exact Ht|].
    unfold strip at 2. apply rstrip_idem. }
  split; [exact Hiff|]. split.
  - intros Hc Hno E. apply Hiff in E.
    destruct E as [[E _]|(_ & name & E & _)]; [congruence|exact (Hno name E)].
  - intros Hc Hno E. apply Hiff in E.
    destruct E as [[_ E]|[E _]]; congruence.
Qed.

Lemma C1_text_empty_only_when_witness :
  let lines := ["---"; "Bob: Hi #happy"; "-> Leave <<if $x>>"; "Alice:"] in
  let r := mkRow "auto_id_0" "NO_TITLE" "Bob" "Hi" ["happy"] in
  In r (extract lines)
  /\ exists before raw after,
    lines = before ++ raw :: after
    /\ snd (loop_body (fst (run initial before)) raw) = Some r
    /\ strip (sub_tags (strip raw)) <> ""
    /\ (text r = "" <-> empties_text (strip (sub_tags (strip raw))))
    /\ (startswith (strip (sub_tags (strip raw))) "->" = false ->
        (forall name, strip (sub_tags (strip raw)) <> name +:+ ":") ->
        text r <> "")
    /\ (startswith (strip (sub_tags (strip raw))) "->" = true ->
        all_chars isspace (sub_cond (strip (lstrip_chars "->" (strip (sub_tags (strip raw))))))
        = false ->
        text r <> "").
Proof.
  intros lines r. split.
  - vm_compute. left. reflexivity.
  - apply (C1_text_empty_only_when lines r). vm_compute. left. reflexivity.
Defined.

(** * Further properties of the loop and of the script *)

(** ** Order, and lines that do not count *)

Lemma loop_body_passed_over st raw :
  passed_over raw = true -> loop_body st raw = (st, None).
Proof.
  unfold passed_over, loop_body. intros H.
  destruct (String.eqb_spec (strip raw) "") as [E|_]; [reflexivity|].
  simpl in H.
  assert (startswith (strip raw) "title:" = false) as Et.
  { destruct (startswith (strip raw) "title:") eqn:Et; [|reflexivity].
    destruct (startswith_title _ Et) as (rest & E & _). rewrite E in H. discriminate. }
  rewrite Et, strip_idem.
  destruct (String.eqb_spec (strip raw) "---") as [E|_];
    [rewrite E in H; discriminate|].
  destruct (String.eqb_spec (strip raw) "===") as [E|_];
    [rewrite E in H; discriminate|].
  rewrite H. destruct (in_body st); reflexivity.
Qed.

(** X2: empty lines, comments and commands count for nothing: taking
    every line that is empty once stripped or begins with [//] or [<<] out
    of the input changes neither the rows nor the final state. *)
Theorem passed_over_lines_are_transparent (st : state) (lines : list string) :
  run st (List.filter (fun raw => negb (passed_over raw)) lines) = run st lines.
Proof.
  revert st. induction lines as [|raw lines IH]; intros st; [reflexivity|].
  simpl. destruct (passed_over raw) eqn:E; simpl.
  - rewrite (loop_body_passed_over _ _ E), IH.
    destruct (run st lines); reflexivity.
  - destruct (loop_body st raw) as [st1 out]. rewrite IH. reflexivity.
Qed.

Lemma loop_body_strip st raw : loop_body st (strip raw) = loop_body st raw.
Proof. unfold loop_body. rewrite !strip_idem. reflexivity. Qed.

(** X3: the whitespace around a line counts for nothing: stripping every
    line beforehand gives the same rows and the same final state. *)
Theorem indentation_is_irrelevant (st : state) (lines : list string) :
  run st (map strip lines) = run st lines.
Proof.
  revert st. induction lines as [|raw lines IH]; intros st; [reflexivity|].
  simpl. rewrite loop_body_strip. destruct (loop_body st raw) as [st1 out].
  rewrite IH. reflexivity.
Qed.

Lemma loop_body_not_in_body st raw :
  in_body st = false -> strip raw <> "---" ->
  snd (loop_body st raw) = None
  /\ in_body (fst (loop_body st raw)) = false
  /\ line_counter (fst (loop_body st raw)) = line_counter st.
Proof.
  intros Hb Hn. unfold loop_body.
  destruct (String.eqb (strip raw) ""); [auto|].
  destruct (startswith (strip raw) "title:").
  { destruct (split1_snd ":" (strip raw)); auto. }
  rewrite strip_idem.
  destruct (String.eqb_spec (strip raw) "---"); [contradiction|].
  destruct (String.eqb (strip raw) "==="); [auto|].
  rewrite Hb. auto.
Qed.

Lemma run_outside_body (st : state) (lines : list string) :
  in_body st = false ->
  (forall raw, In raw lines -> strip raw <> "---") ->
  snd (run st lines) = []
  /\ in_body (fst (run st lines)) = false
  /\ line_counter (fst (run st lines)) = line_counter st.
Proof.
  revert st. induction lines as [|raw lines IH]; intros st Hb Hn; [auto|].
  simpl.
  destruct (loop_body_not_in_body st raw Hb (Hn raw (or_introl eq_refl)))
    as (Ho & Hb1 & Hc1).
  destruct (loop_body st raw) as [st1 out]. simpl in *. subst out.
  destruct (IH st1 Hb1 (fun r H => Hn r (or_intror H))) as (Hr & Hb2 & Hc2).
  destruct (run st1 lines) as [st2 rows]. simpl in *. subst rows.
  split; [reflexivity|]. split; [exact Hb2|]. congruence.
Qed.

(** X4: outside a body nothing is written and the counter does not move
    until a line that is [---] comes: from a state that is not in a body,
    lines none of which is [---] once stripped give no row, whatever they
    hold, and leave the loop outside a body with its counter unchanged. *)
Theorem nothing_written_before_body_start (st : state) (lines : list string) :
  in_body st = false ->
  (forall raw, In raw lines -> strip raw <> "---") ->
  snd (run st lines) = []
  /\ in_body (fst (run st lines)) = false
  /\ line_counter (fst (run st lines)) = line_counter st.
Proof. exact (run_outside_body st lines). Qed.

Lemma nothing_written_before_body_start_witness :
  let st := mkState "Start" false 5 in
  let lines := ["Alice: Hi #line:1"; "-> Leave"; "title: Other"; "==="; "Bob: Bye"] in
  in_body st = false
  /\ (forall raw, In raw lines -> strip raw <> "---")
  /\ snd (run st lines) = []
  /\ in_body (fst (run st lines)) = false
  /\ line_counter (fst (run st lines)) = line_counter st.
Proof.
  intros st lines.
  assert (forall raw, In raw lines -> strip raw <> "---") as Hn.
  { intros raw Hin. simpl in Hin.
    repeat (destruct Hin as [<-|Hin]; [vm_compute; discriminate|]).
    destruct Hin. }
  split; [reflexivity|]. split; [exact Hn|].
  apply (nothing_written_before_body_start st lines); [reflexivity|exact Hn].
Defined.

(** ** Identifiers *)

(** X5: the identifier of a row is never empty. *)
Theorem identifier_nonempty (lines : list string) (r : Row) :
  In r (extract lines) -> line_id r <> "".
Proof.
  intros Hin. apply run_row in Hin. destruct Hin as (pre & raw & post & _ & Hr).
  destruct (loop_body_id _ _ _ Hr) as [(Ht & _)|(Hk & _)].
  - apply is_line_tag_nonempty, Ht.
  - rewrite Hk. discriminate.
Qed.

Lemma identifier_nonempty_witness :
  In (mkRow "auto_id_0" "NO_TITLE" "" "Hi" []) (extract ["---"; "Hi"])
  /\ line_id (mkRow "auto_id_0" "NO_TITLE" "" "Hi" []) <> "".
Proof.
  split.
  - vm_compute. left. reflexivity.
  - apply (identifier_nonempty ["---"; "Hi"]). vm_compute. left. reflexivity.
Defined.

Lemma auto_id_is_made_up st raw r k :
  snd (loop_body st raw) = Some r -> line_id r = auto_id k ->
  k = line_counter st
  /\ line_counter (fst (loop_body st raw)) = S (line_counter st).
Proof.
  intros Hr Hk. destruct (loop_body_id _ _ _ Hr) as [(Ht & _)|(Hk' & Hs)].
  - rewrite Hk, auto_id_not_line_tag in Ht. discriminate.
  - rewrite Hk in Hk'. apply auto_id_inj in Hk'. auto.
Qed.

Lemma run_ids_increasing st lines i j ri rj ki kj :
  nth_error (snd (run st lines)) i = Some ri ->
  nth_error (snd (run st lines)) j = Some rj ->
  i < j ->
  line_id ri = auto_id ki -> line_id rj = auto_id kj ->
  line_counter st <= ki < kj.
Proof.
  revert st i j. induction lines as [|raw lines IH]; intros st i j; simpl.
  { destruct i; discriminate. }
  pose proof (auto_id_is_made_up st raw) as Hid.
  pose proof (loop_body_counter st raw) as Hmono.
  destruct (loop_body st raw) as [st1 out].
  pose proof (run_auto_range st1 lines) as Hrange. specialize (IH st1).
  destruct (run st1 lines) as [st2 rows]; simpl in *.
  assert (forall i j, nth_error rows i = Some ri -> nth_error rows j = Some rj ->
                      i < j -> line_id ri = auto_id ki -> line_id rj = auto_id kj ->
                      line_counter st <= ki < kj) as Hrec.
  { intros i' j' Hi Hj Hlt Hki Hkj.
    pose proof (IH i' j' Hi Hj Hlt Hki Hkj). lia. }
  destruct out as [r0|]; [|apply Hrec].
  intros Hi Hj Hlt Hki Hkj.
  destruct j as [|j]; [lia|]. simpl in Hj.
  destruct i as [|i]; simpl in Hi.
  - inversion Hi; subst r0.
    destruct (Hid ri ki eq_refl Hki) as (-> & Hs).
    apply nth_error_In in Hj.
    destruct (Hrange rj Hj) as (k & Hk & Hr).
    { rewrite Hkj. apply auto_id_not_line_tag. }
    rewrite Hkj in Hk. apply auto_id_inj in Hk. subst k. lia.
  - apply (Hrec i j); [assumption|assumption|lia|assumption|assumption].
Qed.

(** X6: the made-up identifiers go up along the output: of two rows
    with identifiers [auto_id_k] and [auto_id_k'], the one written first has
    the smaller number. *)
Theorem synthesized_ids_increase
    (lines : list string) (i j : nat) (ri rj : Row) (ki kj : nat) :
  nth_error (extract lines) i = Some ri ->
  nth_error (extract lines) j = Some rj ->
  i < j ->
  line_id ri = "auto_id_" +:+ str_of_nat ki ->
  line_id rj = "auto_id_" +:+ str_of_nat kj ->
  ki < kj.
Proof.
  intros Hi Hj Hlt Hki Hkj.
  pose proof (run_ids_increasing initial lines i j ri rj ki kj Hi Hj Hlt Hki Hkj).
  lia.
Qed.

Lemma synthesized_ids_increase_witness :
  let lines := ["---"; "One"; "#dropped"; "Two #line:x"; "Three"] in
  nth_error (extract lines) 0 = Some (mkRow "auto_id_0" "NO_TITLE" "" "One" [])
  /\ nth_error (extract lines) 2 = Some (mkRow "auto_id_2" "NO_TITLE" "" "Three" [])
  /\ 0 < 2.
Proof.
  intros lines.
  split; [vm_compute; reflexivity|]. split; [vm_compute; reflexivity|].
  apply (synthesized_ids_increase lines 0 2
           (mkRow "auto_id_0" "NO_TITLE" "" "One" [])
           (mkRow "auto_id_2" "NO_TITLE" "" "Three" []) 0 2);
    [vm_compute; reflexivity|vm_compute; reflexivity|lia|reflexivity|reflexivity].
Defined.

(** ** Tags *)

Lemma sub_tags_from_head inside s :
  tag_follows s = false -> tag_follows (sub_tags_from inside s) = false.
Proof.
  destruct s as [|c s]; [reflexivity|]. simpl. unfold nonspace.
  intros H. apply negb_false_iff in H. rewrite H. simpl.
  unfold nonspace. rewrite H. reflexivity.
Qed.

Lemma findall_sub_tags_from inside inside' s :
  findall_tags_from inside' (sub_tags_from inside s) = [].
Proof.
  revert inside inside'. induction s as [|c s IH]; intros inside inside';
    [reflexivity|].
  simpl. destruct (isspace c) eqn:Ec.
  { simpl. rewrite Ec. apply IH. }
  destruct inside; [apply IH|].
  destruct (Ascii.eqb c "#" && tag_follows s) eqn:Eh; [apply IH|].
  simpl. rewrite Ec. destruct inside'; [apply IH|].
  replace (Ascii.eqb c "#" && tag_follows (sub_tags_from false s)) with false;
    [apply IH|].
  destruct (Ascii.eqb c "#"); [|reflexivity]. simpl in *.
  symmetry. apply sub_tags_from_head, Eh.
Qed.

Lemma sub_tags_from_clean inside s :
  findall_tags_from inside s = [] -> inside = false ->
  sub_tags_from inside s = s.
Proof.
  intros H ->. induction s as [|c s IH]; [reflexivity|].
  simpl in *. destruct (isspace c); [rewrite (IH H); reflexivity|].
  destruct (Ascii.eqb c "#" && tag_follows s); [discriminate|].
  rewrite (IH H). reflexivity.
Qed.

(** X7: once the tags are removed no tag is left: the scan for tags finds
    nothing in the text the loop goes on with, and removing the tags a
    second time changes nothing. *)
Theorem no_tag_left_after_removal (line : string) :
  findall_tags (sub_tags line) = []
  /\ findall_tags (strip (sub_tags line)) = []
  /\ sub_tags (sub_tags line) = sub_tags line.
Proof.
  assert (findall_tags (sub_tags line) = []) as H
    by apply findall_sub_tags_from.
  split; [exact H|]. split; [rewrite findall_tags_strip; exact H|].
  apply sub_tags_from_clean; [exact H|reflexivity].
Qed.

Lemma takewhile_nonempty s :
  tag_follows s = true -> takewhile nonspace s <> "".
Proof.
  destruct s as [|c s]; [discriminate|]. simpl. intros ->. discriminate.
Qed.

Lemma findall_tags_from_wellformed inside s t :
  In t (findall_tags_from inside s) -> t <> "" /\ all_chars nonspace t = true.
Proof.
  revert inside. induction s as [|c s IH]; intros inside; simpl; [intros []|].
  destruct (isspace c); [apply IH|].
  destruct inside; [apply IH|].
  destruct (Ascii.eqb c "#" && tag_follows s) eqn:E; [|apply IH].
  intros [<-|H]; [|exact (IH _ H)].
  apply andb_prop in E. destruct E as [_ E].
  split; [apply takewhile_nonempty, E|apply takewhile_all].
Qed.

Lemma row_tags_inv (st : state) (raw : string) (r : Row) (t : string) :
  snd (loop_body st raw) = Some r ->
  In t (other_tags r) ->
  In t (findall_tags (strip raw))
  /\ occurs (String "#" t) (strip raw)
  /\ t <> "" /\ all_chars nonspace t = true
  /\ is_line_tag t = false.
Proof.
  intros Hr Hin. apply loop_body_row_inv in Hr. destruct Hr as (_ & _ & _ & ->).
  unfold row_of in Hin. simpl in Hin. rewrite sort_tags_eq in Hin. simpl in Hin.
  apply filter_In in Hin. destruct Hin as [Hin Ht].
  apply negb_true_iff in Ht.
  destruct (findall_tags_from_wellformed _ _ _ Hin) as [Hne Hns].
  split; [exact Hin|]. split; [exact (findall_tags_from_occurs _ _ _ Hin)|].
  auto.
Qed.

(** X8: the tags of a row are tags of its line other than the identifier
    tags: each stands in the stripped line right after a hash, is not
    empty, holds no whitespace, and does not begin with [line:] in any
    case. *)
Theorem row_tags_wellformed (st : state) (raw : string) (r : Row) (t : string) :
  snd (loop_body st raw) = Some r ->
  In t (other_tags r) ->
  In t (findall_tags (strip raw))
  /\ occurs (String "#" t) (strip raw)
  /\ t <> "" /\ all_chars nonspace t = true
  /\ is_line_tag t = false.
Proof. exact (row_tags_inv st raw r t). Qed.

Lemma row_tags_wellformed_witness :
  let st := mkState "Start" true 0 in
  let raw := "  Alice: Hi #happy #LINE:7 #loud;fast " in
  snd (loop_body st raw)
  = Some (mkRow "LINE:7" "Start" "Alice" "Hi" ["happy"; "loud;fast"])
  /\ In "loud;fast" (findall_tags (strip raw))
  /\ occurs (String "#" "loud;fast") (strip raw)
  /\ "loud;fast" <> "" /\ all_chars nonspace "loud;fast" = true
  /\ is_line_tag "loud;fast" = false.
Proof.
  intros st raw. split; [vm_compute; reflexivity|].
  apply (row_tags_wellformed st raw
           (mkRow "LINE:7" "Start" "Alice" "Hi" ["happy"; "loud;fast"]));
    [vm_compute; reflexivity|right; left; reflexivity].
Defined.

Lemma join_cons sep x l :
  join sep (x :: l) = x +:+ match l with [] => "" | _ :: _ => sep +:+ join sep l end.
Proof. destruct l; [simpl; rewrite app_nil_r|]; reflexivity. Qed.

Lemma app_inv_head (a b c : string) : a +:+ b = a +:+ c -> b = c.
Proof.
  induction a as [|x a IH]; [intros H; exact H|].
  rewrite !app_cons. intros H. inversion H. auto.
Qed.

(** A tag followed by the separator: the run up to the first whitespace
    is the tag and the semicolon, what is left begins with the space. *)
Lemma tag_then_sep t rest :
  all_chars nonspace t = true ->
  takewhile nonspace (t +:+ "; " +:+ rest) = t +:+ ";"
  /\ dropwhile nonspace (t +:+ "; " +:+ rest) = String " " rest.
Proof.
  intros Ht. induction t as [|c t IH]; [split; reflexivity|].
  simpl in Ht. apply andb_prop in Ht. destruct Ht as [Hc Ht].
  rewrite !app_cons. simpl. rewrite Hc. destruct (IH Ht) as [E1 E2].
  split; [f_equal; exact E1|exact E2].
Qed.

Lemma app_semicolon_inj a b : a +:+ ";" = b +:+ ";" -> a = b.
Proof.
  revert b. induction a as [|x a IH]; intros [|y b]; rewrite ?app_cons, ?app_nil_l.
  - reflexivity.
  - intros H. inversion H. destruct b; discriminate.
  - intros H. inversion H. destruct a; discriminate.
  - intros H. inversion H. f_equal. auto.
Qed.

Lemma join_tags_inj_aux l1 l2 :
  (forall t, In t l1 -> t <> "" /\ all_chars nonspace t = true) ->
  (forall t, In t l2 -> t <> "" /\ all_chars nonspace t = true) ->
  join "; " l1 = join "; " l2 -> l1 = l2.
Proof.
  revert l2. induction l1 as [|x l1 IH]; intros [|y l2] H1 H2.
  - reflexivity.
  - rewrite join_cons. simpl. intros E. exfalso.
    destruct (H2 y (or_introl eq_refl)) as [Hy _]. destruct y; [contradiction|].
    discriminate.
  - rewrite join_cons. simpl. intros E. exfalso.
    destruct (H1 x (or_introl eq_refl)) as [Hx _]. destruct x; [contradiction|].
    discriminate.
  - destruct (H1 x (or_introl eq_refl)) as [_ Hx].
    destruct (H2 y (or_introl eq_refl)) as [_ Hy].
    rewrite !join_cons. intros E.
    pose proof (f_equal (takewhile nonspace) E) as Et.
    pose proof (f_equal (dropwhile nonspace) E) as Ed.
    destruct l1 as [|x' l1]; destruct l2 as [|y' l2].
    + rewrite !app_nil_r in E. subst. reflexivity.
    + exfalso. rewrite app_nil_r in Et, Ed.
      destruct (tag_then_sep y (join "; " (y' :: l2)) Hy) as [_ Ed'].
      rewrite Ed' in Ed. rewrite <- (takewhile_dropwhile nonspace x) in Hx.
      rewrite Ed, all_chars_app in Hx. apply andb_prop in Hx.
      destruct Hx as [_ Hx]. discriminate.
    + exfalso. rewrite app_nil_r in Et, Ed.
      destruct (tag_then_sep x (join "; " (x' :: l1)) Hx) as [_ Ed'].
      rewrite Ed' in Ed. rewrite <- (takewhile_dropwhile nonspace y) in Hy.
      rewrite <- Ed, all_chars_app in Hy. apply andb_prop in Hy.
      destruct Hy as [_ Hy]. discriminate.
    + destruct (tag_then_sep x (join "; " (x' :: l1)) Hx) as [Et1 Ed1].
      destruct (tag_then_sep y (join "; " (y' :: l2)) Hy) as [Et2 Ed2].
      rewrite Et1, Et2 in Et. rewrite Ed1, Ed2 in Ed.
      apply app_semicolon_inj in Et. inversion Ed as [Ej]. subst y.
      f_equal. apply IH; [| |exact Ej].
      * intros t Hin. apply H1. right. exact Hin.
      * intros t Hin. apply H2. right. exact Hin.
Qed.

(** X9: the tags column can be read back: two rows written by the loop
    whose tags are joined into the same text have the same tags.  (A tag
    holds no space, so the separator, a semicolon and a space, is never
    part of a tag.) *)
Theorem tags_column_determines_tags
    (st1 st2 : state) (raw1 raw2 : string) (r1 r2 : Row) :
  snd (loop_body st1 raw1) = Some r1 ->
  snd (loop_body st2 raw2) = Some r2 ->
  join "; " (other_tags r1) = join "; " (other_tags r2) ->
  other_tags r1 = other_tags r2.
Proof.
  intros H1 H2. apply join_tags_inj_aux.
  - intros t Hin. destruct (row_tags_inv _ _ _ _ H1 Hin) as (_ & _ & ? & ? & _). auto.
  - intros t Hin. destruct (row_tags_inv _ _ _ _ H2 Hin) as (_ & _ & ? & ? & _). auto.
Qed.

Lemma tags_column_determines_tags_witness :
  let st := mkState "Start" true 0 in
  let r1 := mkRow "auto_id_0" "Start" "" "Hi" ["a;"; "b"] in
  let r2 := mkRow "line:1" "Start" "Bob" "Yo" ["a;"; "b"] in
  snd (loop_body st "Hi #a; #b") = Some r1
  /\ snd (loop_body st "Bob: Yo #a; #line:1 #b") = Some r2
  /\ join "; " (other_tags r1) = "a;; b"
  /\ other_tags r1 = other_tags r2.
Proof.
  intros st r1 r2.
  split; [vm_compute; reflexivity|]. split; [vm_compute; reflexivity|].
  split; [reflexivity|].
  apply (tags_column_determines_tags st st "Hi #a; #b" "Bob: Yo #a; #line:1 #b" r1 r2);
    vm_compute; reflexivity.
Defined.

(** ** Speaker and text *)

(** When the speaker pattern fails: the text has no colon, or begins with
    one. *)
Lemma match_speaker_None t :
  match_speaker t = None <->
  all_chars notcolon t = true \/ startswith t ":" = true.
Proof.
  unfold match_speaker. destruct t as [|c t]; [split; auto|].
  simpl takewhile. simpl dropwhile. simpl all_chars. cbv [startswith].
  rewrite (Ascii.eqb_sym ":" c), andb_true_r.
  destruct (notcolon c) eqn:En.
  - assert (Ascii.eqb c ":" = false) as Ec
      by (unfold notcolon in En; apply negb_true_iff in En; exact En).
    rewrite Ec. simpl andb.
    destruct (dropwhile notcolon t) as [|d rest] eqn:Ed.
    + split; [intros _; left; apply dropwhile_nil, Ed|reflexivity].
    + split; [discriminate|]. intros [H|H]; [|discriminate].
      apply dropwhile_nil in H. congruence.
  - split; [|reflexivity]. intros _. right.
    unfold notcolon in En. apply negb_false_iff in En. exact En.
Qed.

Lemma strip_nonempty c s : isspace c = false -> strip (String c s) <> "".
Proof.
  intros Hc. unfold strip, lstrip. simpl dropwhile. rewrite Hc.
  destruct (rstrip_head c s Hc) as (r & ->). discriminate.
Qed.

Lemma takewhile_head f c s : f c = true -> exists g, takewhile f (String c s) = String c g.
Proof. intros H. simpl. rewrite H. eauto. Qed.

(** X10: a line that is not a choice gets a speaker exactly when its text
    (tags removed, stripped) has a colon that is not its first character;
    otherwise the speaker is empty and the text of the row is that text
    unchanged. *)
Theorem speaker_iff_inner_colon (st : state) (raw : string) (r : Row) :
  snd (loop_body st raw) = Some r ->
  startswith (strip (sub_tags (strip raw))) "->" = false ->
  (character_name r = "" <->
   all_chars notcolon (strip (sub_tags (strip raw))) = true
   \/ startswith (strip (sub_tags (strip raw))) ":" = true)
  /\ (character_name r = "" -> text r = strip (sub_tags (strip raw))).
Proof.
  intros Hr Hc. apply loop_body_row_inv in Hr. destruct Hr as (_ & _ & Hne & ->).
  unfold row_of. simpl. set (t := strip (sub_tags (strip raw))) in *.
  rewrite <- match_speaker_None. unfold speaker_and_text. rewrite Hc.
  destruct (match_speaker t) as [[g1 g2]|] eqn:Em; simpl; [|tauto].
  assert (strip g1 <> "") as Hg.
  { unfold match_speaker in Em.
    destruct (strip_head (sub_tags (strip raw))) as [E|(c & s' & E & Hsp)];
      [contradiction|].
    fold t in E. rewrite E in Em. simpl takewhile in Em.
    destruct (notcolon c); [|discriminate].
    destruct (dropwhile notcolon (String c s')) as [|d rest]; [discriminate|].
    inversion Em; subst. apply strip_nonempty, Hsp. }
  split; [split; [contradiction|discriminate]|contradiction].
Qed.

Lemma speaker_iff_inner_colon_witness :
  let st := mkState "Start" true 0 in
  let raw := ": so it goes #sigh" in
  snd (loop_body st raw) = Some (mkRow "auto_id_0" "Start" "" ": so it goes" ["sigh"])
  /\ startswith (strip (sub_tags (strip raw))) "->" = false
  /\ startswith (strip (sub_tags (strip raw))) ":" = true
  /\ character_name (mkRow "auto_id_0" "Start" "" ": so it goes" ["sigh"]) = "".
Proof.
  intros st raw.
  split; [vm_compute; reflexivity|]. split; [vm_compute; reflexivity|].
  split; [vm_compute; reflexivity|].
  apply (proj1 (speaker_iff_inner_colon st raw
                  (mkRow "auto_id_0" "Start" "" ": so it goes" ["sigh"])
                  ltac:(vm_compute; reflexivity) ltac:(vm_compute; reflexivity))).
  right. vm_compute. reflexivity.
Defined.

Lemma strip_all f s : all_chars f s = true -> all_chars f (strip s) = true.
Proof. intros H. exact (all_chars_occurs _ _ _ H (strip_occurs s)). Qed.

(** X11: the speaker of a row holds no colon, and speaker and text are
    stripped: neither begins or ends with whitespace. *)
Theorem speaker_and_text_trimmed (st : state) (raw : string) (r : Row) :
  snd (loop_body st raw) = Some r ->
  all_chars notcolon (character_name r) = true
  /\ strip (character_name r) = character_name r
  /\ strip (text r) = text r.
Proof.
  intros Hr. apply loop_body_row_inv in Hr. destruct Hr as (_ & _ & _ & ->).
  unfold row_of. simpl. set (t := strip (sub_tags (strip raw))).
  unfold speaker_and_text.
  assert (strip (if startswith t "->" then choice_text t else t)
          = (if startswith t "->" then choice_text t else t)) as Ht1.
  { destruct (startswith t "->"); [unfold choice_text|unfold t]; apply strip_idem. }
  destruct (match_speaker (if startswith t "->" then choice_text t else t))
    as [[g1 g2]|] eqn:Em; [|simpl; auto].
  destruct (startswith t "->"); simpl; [auto|].
  split; [|split; apply strip_idem].
  unfold match_speaker in Em.
  pose proof (takewhile_all notcolon t) as Ha.
  destruct (takewhile notcolon t); [discriminate|].
  destruct (dropwhile notcolon t); [discriminate|].
  inversion Em; subst. apply strip_all, Ha.
Qed.

Lemma speaker_and_text_trimmed_witness :
  let st := mkState "Start" true 0 in
  let raw := "  Old  Bob :   well: yes   #slow" in
  snd (loop_body st raw)
  = Some (mkRow "auto_id_0" "Start" "Old  Bob" "well: yes" ["slow"])
  /\ all_chars notcolon "Old  Bob" = true
  /\ strip "Old  Bob" = "Old  Bob"
  /\ strip "well: yes" = "well: yes".
Proof.
  intros st raw. split; [vm_compute; reflexivity|].
  apply (speaker_and_text_trimmed st raw
           (mkRow "auto_id_0" "Start" "Old  Bob" "well: yes" ["slow"])).
  vm_compute. reflexivity.
Defined.

(** ** The script: output file, discovery of the input *)

Lemma substring_all p : substring 0 (String.length p) p = p.
Proof. induction p as [|c p IH]; [reflexivity|]. simpl. rewrite IH. reflexivity. Qed.

Lemma substring_app_skip a b k :
  substring (String.length a) k (a +:+ b) = substring 0 k b.
Proof.
  induction a as [|c a IH]; [reflexivity|]. rewrite app_cons. simpl. exact IH.
Qed.

Lemma substring_suffix m k s :
  m + k = String.length s -> exists pre, s = pre +:+ substring m k s.
Proof.
  revert s. induction m as [|m IH]; intros s H.
  - exists "". simpl in H. subst k. rewrite substring_all. reflexivity.
  - destruct s as [|c s]; [discriminate|]. simpl in H.
    destruct (IH s) as (pre & E); [lia|].
    exists (String c pre). simpl substring. rewrite app_cons, <- E. reflexivity.
Qed.

(** [endswith] is what its name says. *)
Lemma endswith_iff s p : endswith s p = true <-> exists pre, s = pre +:+ p.
Proof.
  unfold endswith. split.
  - intros H. apply andb_prop in H. destruct H as [Hk He].
    apply Nat.leb_le in Hk. apply String.eqb_eq in He.
    destruct (substring_suffix (String.length s - String.length p)
                (String.length p) s) as (pre & E); [lia|].
    exists pre. rewrite He in E. exact E.
  - intros (pre & ->). rewrite length_app.
    replace (String.length pre + String.length p - String.length p)
      with (String.length pre) by lia.
    rewrite substring_app_skip, substring_all, String.eqb_refl.
    rewrite andb_true_r. apply Nat.leb_le. lia.
Qed.

Lemma filter_first (A : Type) (f : A -> bool) (before : list A) (x : A) (after : list A) :
  (forall y, In y before -> f y = false) -> f x = true ->
  List.filter f (before ++ x :: after) = x :: List.filter f after.
Proof.
  intros Hb Hx. induction before as [|y before IH]; simpl.
  - rewrite Hx. reflexivity.
  - rewrite (Hb y (or_introl eq_refl)). apply IH.
    intros z Hz. apply Hb. right. exact Hz.
Qed.

Lemma fold_left_append l acc :
  fold_left String.append l acc = acc +:+ fold_left String.append l "".
Proof.
  revert acc. induction l as [|x l IH]; intros acc; simpl.
  - rewrite app_nil_r. reflexivity.
  - rewrite (IH (acc +:+ x)), (IH ("" +:+ x)), app_nil_l, app_assoc. reflexivity.
Qed.

Section Script.

Variable writerow : list string -> string.
Variable splitext : string -> string * string.
Variable traceback : exn -> string.

Lemma csv_text_header rows :
  csv_text writerow rows =
  writerow header +:+ fold_left String.append (map writerow (map fields rows)) "".
Proof.
  unfold csv_text. simpl. rewrite fold_left_append, app_nil_l. reflexivity.
Qed.

Lemma main_success
    (input_path output_path content : string) (w : world) :
  input_path <> "" -> output_path <> "" ->
  files w !! input_path = Some (Text content) ->
  writable w output_path = true ->
  let '(w', code) :=
    main writerow splitext traceback (Some input_path) (Some output_path) w in
  code = 0
  /\ files w' !! output_path
     = Some (Text (writerow header
                   +:+ fold_left String.append
                         (map writerow (map fields (extract (readlines content)))) ""))
  /\ (forall p, p <> output_path -> files w' !! p = files w !! p)
  /\ stdout w' = stdout w ++ ["Successfully parsed |:) '" +:+ input_path
                              +:+ "' and created/updated '" +:+ output_path +:+ "'"]
  /\ stderr w' = stderr w.
Proof.
  intros Hi Ho Hin Hw. unfold main, given, parse_yarn_to_csv.
  destruct (String.eqb_spec input_path ""); [contradiction|].
  destruct (String.eqb_spec output_path ""); [contradiction|].
  rewrite Hin, Hw. simpl. split; [reflexivity|].
  split; [rewrite lookup_insert_eq, csv_text_header; reflexivity|].
  split; [|split; reflexivity].
  intros p Hp. apply lookup_insert_ne. congruence.
Qed.


(** X13: a text file with no line that is [---], given as input with an
    output path that can be opened for writing, gives an output file that
    holds the header row and nothing else. *)
Theorem no_body_gives_header_only
    (input_path output_path content : string) (w : world) :
  input_path <> "" -> output_path <> "" ->
  files w !! input_path = Some (Text content) ->
  writable w output_path = true ->
  (forall raw, In raw (readlines content) -> strip raw <> "---") ->
  files (fst (main writerow splitext traceback (Some input_path) (Some output_path) w))
    !! output_path = Some (Text (writerow header)).
Proof.
  intros Hi Ho Hin Hw Hno.
  pose proof (main_success _ _ _ w Hi Ho Hin Hw) as H.
  destruct (main writerow splitext traceback (Some input_path) (Some output_path) w)
    as [w' code].
  destruct H as (_ & H & _). simpl. rewrite H. unfold extract.
  destruct (run_outside_body initial (readlines content)
              eq_refl Hno) as (-> & _).
  simpl. rewrite app_nil_r. reflexivity.
Qed.


Lemma no_yarn_filter names :
  (forall n base, In n names -> n <> base +:+ ".yarn") ->
  List.filter (fun f => endswith f ".yarn") names = [].
Proof.
  intros H. apply filter_none. apply not_true_is_false. intros E.
  apply existsb_exists in E. destruct E as (n & Hin & He).
  apply endswith_iff in He. destruct He as (base & ->).
  exact (H _ base Hin eq_refl).
Qed.

(** X14: with no input path given (none, or the empty string), a failure
    to find the input ends the program with code 1 and changes no file:
    both when listing the directory raises an error, whose text is printed
    on the error stream, and when no name listed ends with [.yarn]. *)
Theorem discovery_failure_changes_nothing
    (input_file output_file : option string) (w : world) :
  given input_file = None ->
  match listing w with
  | inl _ => True
  | inr names => forall n base, In n names -> n <> base +:+ ".yarn"
  end ->
  let '(w', code) := main writerow splitext traceback input_file output_file w in
  code = 1
  /\ files w' = files w
  /\ stdout w' = stdout w ++ ["No input file provided. Searching current directory for a .yarn file..."]
  /\ stderr w' = stderr w ++
       [match listing w with
        | inl e => "Error while searching for file: " +:+ e
        | inr _ => "Error: No .yarn file found in the current directory."
        end].
Proof.
  intros Hg Hl. unfold main. rewrite Hg. simpl listing.
  destruct (listing w) as [e|names].
  - simpl. auto.
  - rewrite (no_yarn_filter _ Hl). simpl. auto.
Qed.

(** X15: with no input path given, the program takes the first name of
    the listing that ends with [.yarn], says so, and goes on exactly as if
    that name had been given on the command line. *)
Theorem discovery_takes_first_yarn_file
    (input_file output_file : option string) (w : world)
    (before after : list string) (base : string) :
  given input_file = None ->
  listing w = inr (before ++ (base +:+ ".yarn") :: after) ->
  (forall n b, In n before -> n <> b +:+ ".yarn") ->
  main writerow splitext traceback input_file output_file w =
  main writerow splitext traceback (Some (base +:+ ".yarn")) output_file
       (print ("Found '" +:+ (base +:+ ".yarn") +:+ "'. Using it as input.")
          (print "No input file provided. Searching current directory for a .yarn file..." w)).
Proof.
  intros Hg Hl Hb. unfold main. rewrite Hg. simpl listing. rewrite Hl.
  rewrite filter_first.
  - replace (given (Some (base +:+ ".yarn"))) with (Some (base +:+ ".yarn"));
      [reflexivity|].
    unfold given. destruct (String.eqb_spec (base +:+ ".yarn") "") as [E|];
      [|reflexivity].
    destruct base; discriminate.
  - intros n Hin. apply not_true_is_false. intros E. apply endswith_iff in E.
    destruct E as (b & ->). exact (Hb _ b Hin eq_refl).
  - apply endswith_iff. eauto.
Qed.

End Script.


Lemma no_body_gives_header_only_witness :
  let content := "title: Start" +:+ String "010" "Bob: Hi" +:+ String "010" "===" in
  let w := mkWorld {[ "a.yarn" := Text content ]} (fun _ => true) (inr []) [] [] in
  "a.yarn" <> "" /\ "a.csv" <> ""
  /\ files w !! "a.yarn" = Some (Text content)
  /\ writable w "a.csv" = true
  /\ (forall raw, In raw (readlines content) -> strip raw <> "---")
  /\ files (fst (main (join ",") (fun p => (p, "")) (fun _ => "Traceback")
                      (Some "a.yarn") (Some "a.csv") w))
       !! "a.csv" = Some (Text (join "," header)).
Proof.
  intros content w.
  assert (forall raw, In raw (readlines content) -> strip raw <> "---") as Hno.
  { intros raw Hin. vm_compute in Hin.
    repeat (destruct Hin as [<-|Hin]; [vm_compute; discriminate|]).
    destruct Hin. }
  split; [discriminate|]. split; [discriminate|]. split; [reflexivity|].
  split; [reflexivity|]. split; [exact Hno|].
  apply (no_body_gives_header_only (join ",") (fun p => (p, ""))
           (fun _ => "Traceback") "a.yarn" "a.csv" content w);
    [discriminate|discriminate|reflexivity|reflexivity|exact Hno].
Defined.


Lemma discovery_failure_changes_nothing_witness :
  let w := mkWorld {[ "notes.txt" := Text "hello" ]} (fun _ => false) (inr ["notes.txt"; "yarn"; "a.yarn.bak"]) [] [] in
  given (Some "") = None
  /\ (forall n base, In n ["notes.txt"; "yarn"; "a.yarn.bak"] -> n <> base +:+ ".yarn")
  /\ let '(w', code) := main (join ",") (fun p => (p, "")) (fun _ => "Traceback") (Some "") (Some "out.csv") w in
     code = 1
     /\ files w' = files w
     /\ stdout w' = stdout w ++ ["No input file provided. Searching current directory for a .yarn file..."]
     /\ stderr w' = stderr w ++
          [match listing w with
           | inl e => "Error while searching for file: " +:+ e
           | inr _ => "Error: No .yarn file found in the current directory."
           end].
Proof.
  intros w.
  assert (forall n base, In n ["notes.txt"; "yarn"; "a.yarn.bak"] -> n <> base +:+ ".yarn")
    as Hno.
  { intros n base Hin E.
    assert (endswith n ".yarn" = true) as He by (apply endswith_iff; eauto).
    simpl in Hin.
    repeat (destruct Hin as [<-|Hin]; [vm_compute in He; discriminate|]).
    destruct Hin. }
  split; [reflexivity|]. split; [exact Hno|].
  apply (discovery_failure_changes_nothing (join ",") (fun p => (p, "")) (fun _ => "Traceback")
           (Some "") (Some "out.csv") w); [reflexivity|exact Hno].
Defined.

Lemma discovery_takes_first_yarn_file_witness :
  let w := mkWorld {[ "b.yarn" := Text "---" ]} (fun _ => true) (inr ["notes.txt"; "b.yarn"; "a.yarn"]) [] [] in
  given None = None
  /\ listing w = inr (["notes.txt"] ++ ("b" +:+ ".yarn") :: ["a.yarn"])
  /\ (forall n b, In n ["notes.txt"] -> n <> b +:+ ".yarn")
  /\ main (join ",") (fun p => (p, "")) (fun _ => "Traceback") None None w =
     main (join ",") (fun p => (p, "")) (fun _ => "Traceback") (Some ("b" +:+ ".yarn")) None
          (print ("Found '" +:+ ("b" +:+ ".yarn") +:+ "'. Using it as input.")
             (print "No input file provided. Searching current directory for a .yarn file..." w)).
Proof.
  intros w.
  assert (forall n b, In n ["notes.txt"] -> n <> b +:+ ".yarn") as Hno.
  { intros n b Hin E.
    assert (endswith n ".yarn" = true) as He by (apply endswith_iff; eauto).
    simpl in Hin. destruct Hin as [<-|[]]. vm_compute in He. discriminate. }
  split; [reflexivity|]. split; [reflexivity|]. split; [exact Hno|].
  apply (discovery_takes_first_yarn_file (join ",") (fun p => (p, "")) (fun _ => "Traceback")
           None None w ["notes.txt"] ["a.yarn"] "b");
    [reflexivity|reflexivity|exact Hno].
Defined.

(** ** Rows of a file hold no line feed *)

Lemma all_chars_impl (f g : ascii -> bool) s :
  (forall c, f c = true -> g c = true) ->
  all_chars f s = true -> all_chars g s = true.
Proof.
  intros Hfg. induction s as [|c s IH]; [reflexivity|]. simpl. intros H.
  apply andb_prop in H. destruct H as [Hc Hs]. rewrite (Hfg c Hc), (IH Hs).
  reflexivity.
Qed.

Lemma nonspace_isdot c : nonspace c = true -> isdot c = true.
Proof.
  unfold nonspace, isdot. destruct (Ascii.eqb_spec c "010") as [->|]; [|reflexivity].
  intros H. discriminate.
Qed.

Lemma sub_cond_from_all f k s :
  all_chars f s = true -> all_chars f (sub_cond_from k s) = true.
Proof.
  revert k. induction s as [|c s IH]; intros k; [reflexivity|].
  intros H. simpl in H. apply andb_prop in H. destruct H as [Hc Hs].
  destruct k as [|k]; [|apply IH, Hs].
  pose proof (sub_cond_cons c s) as E. unfold sub_cond in E at 1. rewrite E.
  destruct (match_cond (String c s)) as [[|n]|];
    [| apply IH, Hs |]; unfold sub_cond; simpl; rewrite Hc; apply IH, Hs.
Qed.

Lemma takewhile_keeps f g s :
  all_chars f s = true -> all_chars f (takewhile g s) = true.
Proof.
  intros H. apply (all_chars_occurs _ _ _ H). exists "", (dropwhile g s).
  rewrite app_nil_l, takewhile_dropwhile. reflexivity.
Qed.

Lemma string_of_uint_digits d :
  all_chars isdot (NilEmpty.string_of_uint d) = true.
Proof. induction d; simpl; auto. Qed.

Lemma speaker_and_text_no_line_feed t :
  no_line_feed t = true ->
  no_line_feed (fst (speaker_and_text t)) = true
  /\ no_line_feed (snd (speaker_and_text t)) = true.
Proof.
  unfold no_line_feed. intros Ht. unfold speaker_and_text.
  assert (all_chars isdot (if startswith t "->" then choice_text t else t) = true)
    as Ht1.
  { destruct (startswith t "->"); [|exact Ht]. unfold choice_text.
    apply strip_all, sub_cond_from_all, strip_all, dropwhile_all, Ht. }
  unfold match_speaker.
  pose proof (takewhile_keeps isdot notcolon _ Ht1) as Hg1.
  destruct (takewhile notcolon (if startswith t "->" then choice_text t else t))
    as [|c g1]; [auto|].
  destruct (dropwhile notcolon (if startswith t "->" then choice_text t else t))
    as [|d rest]; [auto|].
  destruct (startswith t "->"); simpl; [auto|].
  split; [apply strip_all, Hg1|apply strip_all, takewhile_all].
Qed.

Lemma join_no_line_feed tags :
  (forall t, In t tags -> no_line_feed t = true) ->
  no_line_feed (join "; " tags) = true.
Proof.
  unfold no_line_feed. induction tags as [|x tags IH]; intros H; [reflexivity|].
  rewrite join_cons, all_chars_app, (H x (or_introl eq_refl)). simpl.
  destruct tags as [|y tags]; [reflexivity|].
  rewrite all_chars_app. simpl. apply IH. intros t Hin. apply H. right. exact Hin.
Qed.

Lemma title_of_Some line t :
  title_of line = Some t -> exists rest, line = "title:" +:+ rest /\ t = strip rest.
Proof.
  intros H. destruct (startswith line "title:") eqn:E.
  - destruct (startswith_title _ E) as (rest & El & _ & Et).
    exists rest. split; [exact El|congruence].
  - rewrite (not_startswith_title _ E) in H. discriminate.
Qed.

(** One iteration on a line without line feed keeps the title free of line
    feed and writes only fields free of line feed. *)
Lemma loop_body_no_line_feed st raw :
  no_line_feed (current_node_title st) = true ->
  no_line_feed (strip raw) = true ->
  no_line_feed (current_node_title (fst (loop_body st raw))) = true
  /\ forall r f, snd (loop_body st raw) = Some r -> In f (fields r) ->
                 no_line_feed f = true.
Proof.
  intros Hst Hraw. split.
  - rewrite loop_body_title. destruct (title_of (strip raw)) as [t|] eqn:Et.
    + destruct (title_of_Some _ _ Et) as (rest & E & ->).
      unfold no_line_feed in *. rewrite E, all_chars_app in Hraw.
      apply andb_prop in Hraw. destruct Hraw as [_ Hrest]. apply strip_all, Hrest.
    + destruct (String.eqb (strip raw) "==="); [reflexivity|exact Hst].
  - intros r f Hr Hf.
    assert (no_line_feed (strip (sub_tags (strip raw))) = true) as Ht.
    { apply strip_all. apply (sub_tags_from_all isdot false). exact Hraw. }
    destruct (speaker_and_text_no_line_feed _ Ht) as [Hname Htext].
    assert (forall t, In t (findall_tags (strip raw)) -> no_line_feed t = true) as Htags.
    { intros t Hin. destruct (findall_tags_from_wellformed _ _ _ Hin) as [_ Hns].
      exact (all_chars_impl _ _ _ nonspace_isdot Hns). }
    pose proof (loop_body_id _ _ _ Hr) as Hid.
    pose proof (fun t => row_tags_inv st raw r t Hr) as Hother.
    apply loop_body_row_inv in Hr. destruct Hr as (_ & _ & _ & Er).
    unfold fields in Hf. simpl in Hf.
    destruct Hf as [<-|[<-|[<-|[<-|[<-|[]]]]]].
    + destruct Hid as [(_ & Hin & _)|(-> & _)]; [apply Htags, Hin|].
      unfold auto_id, no_line_feed. rewrite all_chars_app. simpl.
      apply string_of_uint_digits.
    + subst r. exact Hst.
    + subst r. exact Hname.
    + subst r. exact Htext.
    + apply join_no_line_feed. intros t Hin.
      destruct (Hother t Hin) as (Hin' & _). apply Htags, Hin'.
Qed.

Lemma run_no_line_feed st lines :
  no_line_feed (current_node_title st) = true ->
  (forall raw, In raw lines -> no_line_feed (strip raw) = true) ->
  forall r f, In r (snd (run st lines)) -> In f (fields r) -> no_line_feed f = true.
Proof.
  revert st. induction lines as [|raw lines IH]; intros st Hst Hl r f; simpl;
    [intros []|].
  destruct (loop_body_no_line_feed st raw Hst (Hl raw (or_introl eq_refl)))
    as [Hst1 Hrow].
  destruct (loop_body st raw) as [st1 out]. simpl in *.
  specialize (IH st1 Hst1 (fun x H => Hl x (or_intror H)) r f).
  destruct (run st1 lines) as [st2 rows]. simpl in *.
  destruct out as [r0|]; [|exact IH].
  intros [<-|Hin]; [apply Hrow; reflexivity|exact (IH Hin)].
Qed.

(** X16: whatever the file holds, no field written for it holds a line
    feed: identifier, node title, speaker, text and joined tags of every
    row of the lines [readlines] gives are free of line feed, so every row
    fits on one line of the output. *)
Theorem fields_hold_no_line_feed (content : string) (r : Row) (f : string) :
  In r (extract (readlines content)) -> In f (fields r) ->
  no_line_feed f = true.
Proof.
  apply run_no_line_feed; [reflexivity|].
  intros raw Hin. apply strip_line_shape.
  pose proof (readlines_shape_fuel _ content (le_n _)) as H.
  rewrite Forall_forall in H. apply H, list_elem_of_In, Hin.
Qed.

Lemma fields_hold_no_line_feed_witness :
  let content := "title: A" +:+ String "013" (String "010" "---")
                 +:+ String "013" "Bob: Hi #x" +:+ String "010" "" in
  let r := mkRow "auto_id_0" "A" "Bob" "Hi" ["x"] in
  In r (extract (readlines content))
  /\ In "Hi" (fields r)
  /\ no_line_feed "Hi" = true.
Proof.
  intros content r.
  assert (In r (extract (readlines content))) as Hr
    by (vm_compute; left; reflexivity).
  assert (In "Hi" (fields r)) as Hf by (vm_compute; tauto).
  split; [exact Hr|]. split; [exact Hf|].
  exact (fields_hold_no_line_feed content r "Hi" Hr Hf).
Defined.

(** ** What the removal of tags takes away *)

Lemma tags_accounting s :
  String.length (sub_tags_from false s) + tags_chars (findall_tags_from false s)
  = String.length s
  /\ String.length (sub_tags_from true s) + String.length (takewhile nonspace s)
     + tags_chars (findall_tags_from true s)
     = String.length s.
Proof.
  induction s as [|c s (IHa & IHb)]; [split; reflexivity|].
  simpl. assert (nonspace c = negb (isspace c)) as En by reflexivity.
  rewrite En. destruct (isspace c); simpl.
  - split; lia.
  - split; [|lia].
    destruct (Ascii.eqb c "#" && tag_follows s); simpl;
      change (fun c0 => negb (isspace c0)) with nonspace; lia.
Qed.

(** X17: removing the tags takes away the tags found, each with its hash,
    and nothing else: the length of a line is the length of what is left
    plus, for every tag found, its length and one.  So a line is changed
    exactly when a tag is found in it. *)
Theorem tag_removal_takes_exactly_the_tags (line : string) :
  String.length (sub_tags line) + tags_chars (findall_tags line)
  = String.length line
  /\ (sub_tags line = line <-> findall_tags line = []).
Proof.
  pose proof (proj1 (tags_accounting line)) as H. fold (sub_tags line) in H.
  fold (findall_tags line) in H. split; [exact H|]. split.
  - intros E. rewrite E in H. destruct (findall_tags line); [reflexivity|].
    simpl in H. lia.
  - intros E. apply sub_tags_from_clean; [exact E|reflexivity].
Qed.
